(** * The image-editing client of [src/services/geminiService.ts]

    A shallow embedding of [editImage]: the construction of the multimodal
    chat message, the call to the upstream endpoint (taken as a function
    from the request body to what the transport delivers) and the
    extraction of an image from the decoded JSON answer, followed by the
    properties of the request builder and of the response extractor.

    JavaScript values are embedded as they exist at run time: strings are
    sequences of UTF-16 code units, the decoded answer is an untyped JSON
    tree, property access and truthiness follow the language, and a
    [throw] is an abrupt completion threaded through an error monad. *)

From Stdlib Require Import String Ascii List NArith ZArith Bool Lia.
From Stdlib Require DecimalString QArith.
Import ListNotations.

(* ===================================================================== *)
(** ** Strings: sequences of UTF-16 code units *)
(* ===================================================================== *)

Module JsString.

Local Open Scope N_scope.

(** A code unit; a string value is a finite sequence of them. *)
Definition char16 := N.
Definition jsstring := list char16.

(** Source literals are written in this file as UTF-8 text; [decode]
    turns the bytes of a literal into the code units the engine holds.
    Every literal of the source lies in the Basic Multilingual Plane, so
    sequences of one, two and three bytes are all that occur. *)
Fixpoint decode (bytes : list N) : jsstring :=
  match bytes with
  | [] => []
  | b0 :: t =>
      if b0 <? 128 then b0 :: decode t
      else if b0 <? 224 then
        match t with
        | b1 :: t1 => ((b0 - 192) * 64 + (b1 - 128)) :: decode t1
        | [] => []
        end
      else
        match t with
        | b1 :: b2 :: t2 =>
            ((b0 - 224) * 4096 + (b1 - 128) * 64 + (b2 - 128)) :: decode t2
        | _ => []
        end
  end.

Definition js (s : string) : jsstring :=
  decode (map N_of_ascii (list_ascii_of_string s)).

(** The characters that have no escape-free spelling in a literal. *)
Definition quote : jsstring := [34].
Definition nl : jsstring := [10].

Definition eqb (a b : jsstring) : bool :=
  if list_eq_dec N.eq_dec a b then true else false.

(** [stripPrefix p s] is [Some rest] exactly when [s = p ++ rest]. *)
Fixpoint stripPrefix (p s : jsstring) : option jsstring :=
  match p, s with
  | [], _ => Some s
  | _ :: _, [] => None
  | a :: p', b :: s' => if a =? b then stripPrefix p' s' else None
  end.

(** [String.prototype.startsWith] with a single argument. *)
Definition startsWith (s p : jsstring) : bool :=
  match stripPrefix p s with Some _ => true | None => false end.

(** [String.prototype.includes] with a single argument. *)
Fixpoint includes (s p : jsstring) : bool :=
  if startsWith s p then true
  else match s with
       | [] => false
       | _ :: t => includes t p
       end.

(** The longest prefix whose code units all satisfy [f], and the rest. *)
Fixpoint span (f : char16 -> bool) (s : jsstring) : jsstring * jsstring :=
  match s with
  | [] => ([], [])
  | c :: t =>
      if f c then let (run, rest) := span f t in (c :: run, rest)
      else ([], s)
  end.

Fixpoint dropWhile (f : char16 -> bool) (s : jsstring) : jsstring :=
  match s with
  | [] => []
  | c :: t => if f c then dropWhile f t else s
  end.

(** WhiteSpace and LineTerminator of the language: TAB, LF, VT, FF, CR,
    SP, NBSP, the space separators of Unicode, LS, PS and the BOM. *)
Definition isWhiteSpace (c : char16) : bool :=
  ((9 <=? c) && (c <=? 13))
  || (c =? 32) || (c =? 160) || (c =? 5760)
  || ((8192 <=? c) && (c <=? 8202))
  || (c =? 8232) || (c =? 8233) || (c =? 8239) || (c =? 8287)
  || (c =? 12288) || (c =? 65279).

(** [String.prototype.trim]. *)
Definition trim (s : jsstring) : jsstring :=
  List.rev (dropWhile isWhiteSpace (List.rev (dropWhile isWhiteSpace s))).

(** Decimal spelling of a non-negative integer, as number-to-string
    conversion yields it. *)
Definition decimal (n : N) : jsstring :=
  js (DecimalString.NilZero.string_of_uint (N.to_uint n)).

End JsString.

Import JsString.

Declare Scope js_scope.
Delimit Scope js_scope with js.
Notation "a +++ b" := (@app JsString.char16 a b)
  (at level 60, right associativity) : js_scope.
Local Open Scope js_scope.


(* ===================================================================== *)
(** ** Values, completions and the primitive operations of the language *)
(* ===================================================================== *)

Module Js.

(** A JSON number is observed by this program in two ways only: whether
    it is truthy, and (inside [new Error(...)]) its string conversion.
    It is carried as exactly these two observations. *)
Record number := { nonzero : bool; spelling : jsstring }.

(** What [response.json()] yields, plus [undefined], which JSON never
    contains but every failed property lookup produces.  An object is
    the list of its own properties; [getOwn] returns the first binding
    of a name. *)
#[warnings="-register-all"]
Inductive value :=
| VUndef
| VNull
| VBool (b : bool)
| VNum (n : number)
| VStr (s : jsstring)
| VArr (items : list value)
| VObj (props : list (jsstring * value)).

(** What a [throw] carries: an [Error] instance (of any subclass, told
    apart by [name]) with its [message], or some other value. *)
Inductive exn :=
| ErrorObject (name message : jsstring)
| NonError (v : value).

Definition Error (message : jsstring) : exn :=
  ErrorObject (js "Error") message.
Definition TypeError (message : jsstring) : exn :=
  ErrorObject (js "TypeError") message.

(** Completions: an expression or statement list either finishes with a
    value or throws. *)
Inductive completion (A : Type) :=
| Normal (a : A)
| Throw (e : exn).
Arguments Normal {A} a.
Arguments Throw {A} e.

Definition bind {A B} (c : completion A) (k : A -> completion B)
  : completion B :=
  match c with
  | Normal a => k a
  | Throw e => Throw e
  end.

(** [try { body } catch (error) { handler }] *)
Definition tryCatch {A} (body : completion A) (handler : exn -> completion A)
  : completion A :=
  match body with
  | Normal a => Normal a
  | Throw e => handler e
  end.

(** ToBoolean. *)
Definition truthy (v : value) : bool :=
  match v with
  | VUndef | VNull => false
  | VBool b => b
  | VNum n => nonzero n
  | VStr s => match s with [] => false | _ :: _ => true end
  | VArr _ | VObj _ => true
  end.

Definition nullish (v : value) : bool :=
  match v with
  | VUndef | VNull => true
  | _ => false
  end.

Fixpoint getOwn (props : list (jsstring * value)) (name : jsstring)
  : option value :=
  match props with
  | [] => None
  | (k, v) :: rest => if JsString.eqb k name then Some v else getOwn rest name
  end.

(** [v.name] for the property names this program reads ([choices],
    [message], [content], [images], [attachments], [image_url], [type],
    [url], [content_type], [error]).  None of them is an index, [length]
    or a member of a built-in prototype, so on a primitive or an array
    the lookup finds nothing; on [null] and [undefined] it throws.  The
    message texts of engine-raised errors are those of V8. *)
Definition prop (v : value) (name : jsstring) : completion value :=
  match v with
  | VUndef =>
      Throw (TypeError (js "Cannot read properties of undefined (reading '"
                        +++ name +++ js "')"))
  | VNull =>
      Throw (TypeError (js "Cannot read properties of null (reading '"
                        +++ name +++ js "')"))
  | VObj props =>
      Normal (match getOwn props name with Some x => x | None => VUndef end)
  | VBool _ | VNum _ | VStr _ | VArr _ => Normal VUndef
  end.

(** [v?.name] *)
Definition optProp (v : value) (name : jsstring) : completion value :=
  if nullish v then Normal VUndef else prop v name.

(** [v?.[0]]: the first element of an array, the first code unit of a
    string, the own property ["0"] of an object. *)
Definition optIndex0 (v : value) : completion value :=
  match v with
  | VUndef | VNull => Normal VUndef
  | VArr items => Normal (match items with x :: _ => x | [] => VUndef end)
  | VStr s => Normal (match s with c :: _ => VStr [c] | [] => VUndef end)
  | VObj props =>
      Normal (match getOwn props (js "0") with Some x => x | None => VUndef end)
  | VBool _ | VNum _ => Normal VUndef
  end.

(** [v === 'literal'] *)
Definition strictEqStr (v : value) (literal : jsstring) : bool :=
  match v with
  | VStr s => JsString.eqb s literal
  | _ => false
  end.

(** ToString, as [new Error(v)] applies it to its argument.  An array
    joins its elements with commas, a hole-like element ([null],
    [undefined]) contributing nothing; a plain object prints as
    [[object Object]] unless an own, necessarily non-callable [toString]
    shadows the inherited one, which leaves no way to a primitive. *)
Fixpoint toStr (v : value) : completion jsstring :=
  match v with
  | VUndef => Normal (js "undefined")
  | VNull => Normal (js "null")
  | VBool true => Normal (js "true")
  | VBool false => Normal (js "false")
  | VNum n => Normal (spelling n)
  | VStr s => Normal s
  | VArr items =>
      (fix join (l : list value) : completion jsstring :=
         match l with
         | [] => Normal []
         | x :: t =>
             bind (if nullish x then Normal [] else toStr x) (fun sx =>
             match t with
             | [] => Normal sx
             | _ :: _ => bind (join t) (fun st => Normal (sx +++ js "," +++ st))
             end)
         end) items
  | VObj props =>
      match getOwn props (js "toString") with
      | Some _ => Throw (TypeError (js "Cannot convert object to primitive value"))
      | None => Normal (js "[object Object]")
      end
  end.

End Js.

Import Js.

Notation "x <- c ;; k" := (Js.bind c (fun x => k))
  (at level 61, c at next level, right associativity) : js_scope.

(* ===================================================================== *)
(** ** The two regular expressions of the extractor *)
(* ===================================================================== *)

Module Regex.

Local Open Scope N_scope.

(** [[A-Za-z0-9+/]] *)
Definition isBase64Digit (c : char16) : bool :=
  ((65 <=? c) && (c <=? 90)) || ((97 <=? c) && (c <=? 122))
  || ((48 <=? c) && (c <=? 57)) || (c =? 43) || (c =? 47).

(** [[A-Za-z0-9+/=]] *)
Definition isBase64Char (c : char16) : bool :=
  isBase64Digit c || (c =? 61).

(** [[^;]] *)
Definition notSemicolon (c : char16) : bool := negb (c =? 59).

(** One attempt of [/data:image\/[^;]+;base64,([A-Za-z0-9+/=]+)/] at the
    head of [s].  Both repetitions are greedy and neither can give a
    code unit back: the class [[^;]] excludes the [;] that must follow
    it, and nothing follows the capture group.  So the attempt succeeds
    exactly when the longest runs do.  The result is the pair of the
    whole match and of the capture group. *)
Definition matchDataUriAt (s : jsstring) : option (jsstring * jsstring) :=
  match stripPrefix (js "data:image/") s with
  | None => None
  | Some s1 =>
      let (subtype, s2) := span notSemicolon s1 in
      match subtype with
      | [] => None
      | _ :: _ =>
          match stripPrefix (js ";base64,") s2 with
          | None => None
          | Some s3 =>
              let (payload, _) := span isBase64Char s3 in
              match payload with
              | [] => None
              | _ :: _ =>
                  Some (js "data:image/" +++ subtype +++ js ";base64,"
                        +++ payload, payload)
              end
          end
      end
  end.

(** [s.match(/data:image\/[^;]+;base64,([A-Za-z0-9+/=]+)/)]: the
    leftmost position at which an attempt succeeds; [None] is [null]. *)
Fixpoint matchDataUri (s : jsstring) : option (jsstring * jsstring) :=
  match matchDataUriAt s with
  | Some m => Some m
  | None =>
      match s with
      | [] => None
      | _ :: t => matchDataUri t
      end
  end.

(** [/^[A-Za-z0-9+/]{100,}={0,2}$/.test(s)].  The digit class excludes
    [=], so the run of digits is the longest one; what is left must be
    at most two [=] up to the end of the input. *)
Definition base64Pattern (s : jsstring) : bool :=
  let (digits, padding) := span isBase64Digit s in
  (100 <=? N.of_nat (length digits))
  && match padding with
     | [] => true
     | [p] => p =? 61
     | [p; q] => (p =? 61) && (q =? 61)
     | _ => false
     end.

End Regex.

Import Regex.

(* ===================================================================== *)
(** ** The data of the call *)
(* ===================================================================== *)

Module Api.

(** [{ base64: string; mimeType: string }] *)
Record ImageInput := { base64 : jsstring; mimeType : jsstring }.

(** A part of the outgoing message:
    [{ type: "image_url", image_url: { url } }] or [{ type: "text", text }]. *)
Inductive ContentPart :=
| image_url (url : jsstring)
| text_part (text : jsstring).

Record Message := { role : jsstring; content : list ContentPart }.

Record RequestBody := {
  model : jsstring;
  messages : list Message;
  max_tokens : N;
  temperature : QArith_base.Q
}.

(** What the program reads of the [Response] the transport resolves
    with: the status line and the outcome of [response.json()]. *)
Record Response := {
  status : N;
  statusText : jsstring;
  json : completion value
}.

(** [response.ok]: the status is in the range 200-299. *)
Definition ok (response : Response) : bool :=
  ((200 <=? status response) && (status response <=? 299))%N.

(** [GeneratedContent] of [../types].  The declared field type is
    [string | null]; at run time [imageUrl] holds whatever the decoded
    answer held at the place it was taken from. *)
Record GeneratedContent := { imageUrl : value; text : value }.

Definition setImageUrl (result : GeneratedContent) (v : value) :=
  {| imageUrl := v; text := text result |}.
Definition setText (result : GeneratedContent) (v : value) :=
  {| imageUrl := imageUrl result; text := v |}.

End Api.

Import Api.

(* ===================================================================== *)
(** ** [editImage]: building the request (lines 47-101) *)
(* ===================================================================== *)

Definition MODEL_NAME : jsstring := js "google/gemini-2.5-flash-image-preview".

(** [if (maskBase64)]: [null] and the empty string are falsy. *)
Definition maskGiven (maskBase64 : option jsstring) : bool :=
  match maskBase64 with
  | Some (_ :: _) => true
  | _ => false
  end.

(** [fullPrompt] after line 69. *)
Definition fullPrompt (prompt : jsstring) (maskBase64 : option jsstring)
  : jsstring :=
  if maskGiven maskBase64 then
    js "Apply the following instruction only to the masked area of the image: "
    +++ quote +++ prompt +++ quote +++ js ". Preserve the unmasked area."
  else prompt.

Definition enhancedPrompt (prompt : jsstring) (maskBase64 : option jsstring)
  : jsstring :=
  fullPrompt prompt maskBase64
  +++ js " Please generate and return an image as output.".

(** [messageContent] after line 86: the pushes in program order. *)
Definition messageContent
    (base64ImageData mimeType prompt : jsstring)
    (maskBase64 : option jsstring) (secondaryImage : option ImageInput)
  : list ContentPart :=
  [image_url (js "data:" +++ mimeType +++ js ";base64," +++ base64ImageData)]
  ++ (match maskBase64 with
      | Some ((_ :: _) as mask) => [image_url (js "data:image/png;base64," +++ mask)]
      | _ => []
      end)
  ++ (match secondaryImage with
      | Some img =>
          [image_url (js "data:" +++ Api.mimeType img +++ js ";base64,"
                      +++ base64 img)]
      | None => []
      end)
  ++ [text_part (enhancedPrompt prompt maskBase64)].

Definition requestBody
    (base64ImageData mimeType prompt : jsstring)
    (maskBase64 : option jsstring) (secondaryImage : option ImageInput)
  : RequestBody :=
  {| model := MODEL_NAME;
     messages :=
       [ {| role := js "user";
            content := messageContent base64ImageData mimeType prompt
                         maskBase64 secondaryImage |} ];
     max_tokens := 4096%N;
     temperature := QArith_base.Qmake 7%Z 10%positive |}.

(* ===================================================================== *)
(** ** [editImage]: reading the answer (lines 125-228) *)
(* ===================================================================== *)

(** [data.choices?.[0]?.message] *)
Definition firstMessage (data : value) : completion value :=
  choices <- prop data (js "choices") ;;
  choice <- optIndex0 choices ;;
  optProp choice (js "message").

(** [data.choices?.[0]?.message?.content] (line 128) *)
Definition responseContent (data : value) : completion value :=
  message <- firstMessage data ;;
  optProp message (js "content").

(** The argument of the second [console.log] of line 132,
    [responseContent?.substring?.(0, 200) + '...'], evaluated for a truthy
    [responseContent]: only an own, non-callable [substring] can make it
    throw. *)
Definition contentPreview (responseContent : value) : completion unit :=
  match responseContent with
  | VObj props =>
      match getOwn props (js "substring") with
      | Some v =>
          if nullish v then Normal tt
          else Throw (TypeError (js "responseContent?.substring is not a function"))
      | None => Normal tt
      end
  | _ => Normal tt
  end.

(** [responseContent.match(/data:image.../)] (line 138): only a string has
    a [match] method. *)
Definition base64ImageMatch (responseContent : value)
  : completion (option (jsstring * jsstring)) :=
  match responseContent with
  | VStr s => Normal (matchDataUri s)
  | _ => Throw (TypeError (js "responseContent.match is not a function"))
  end.

(** Lines 130-157: the data URI inside the content, else a content that is
    nothing but base64, else the content kept as text. *)
Definition fromContent (responseContent : value) (result : GeneratedContent)
  : completion GeneratedContent :=
  if truthy responseContent then
    _ <- contentPreview responseContent ;;
    found <- base64ImageMatch responseContent ;;
    let result :=
      match found with
      | None =>
          match responseContent with
          | VStr s =>
              if base64Pattern (trim s)
              then setImageUrl result (VStr (js "data:image/png;base64," +++ trim s))
              else result
          | _ => result
          end
      | Some (whole, _) => setImageUrl result (VStr whole)
      end in
    Normal
      match responseContent with
      | VStr s =>
          if negb (truthy (imageUrl result)) then setText result (VStr s)
          else result
      | _ => result
      end
  else Normal result.

(** The loop of lines 167-173 and of lines 197-203: the [url] of the first
    element tagged [image_url] that has a truthy one. *)
Fixpoint firstImageUrlPart (items : list value) : completion (option value) :=
  match items with
  | [] => Normal None
  | item :: rest =>
      tag <- prop item (js "type") ;;
      if strictEqStr tag (js "image_url") then
        nested <- prop item (js "image_url") ;;
        url <- optProp nested (js "url") ;;
        if truthy url then Normal (Some url) else firstImageUrlPart rest
      else firstImageUrlPart rest
  end.

(** Lines 165-174. *)
Definition fromImages (message : value) (result : GeneratedContent)
  : completion GeneratedContent :=
  images <- prop message (js "images") ;;
  match images with
  | VArr items =>
      found <- firstImageUrlPart items ;;
      Normal match found with
             | Some url => setImageUrl result url
             | None => result
             end
  | _ => Normal result
  end.

(** The callback of [find] (lines 179-181):
    [att.type === 'image' || att.content_type?.startsWith('image/')]. *)
Definition isImageAttachment (att : value) : completion bool :=
  tag <- prop att (js "type") ;;
  if strictEqStr tag (js "image") then Normal true
  else
    content_type <- prop att (js "content_type") ;;
    match content_type with
    | VUndef | VNull => Normal false
    | VStr s => Normal (startsWith s (js "image/"))
    | _ => Throw (TypeError (js "att.content_type?.startsWith is not a function"))
    end.

(** [Array.prototype.find]: the first element the callback accepts, else
    [undefined]. *)
Fixpoint find (callback : value -> completion bool) (items : list value)
  : completion value :=
  match items with
  | [] => Normal VUndef
  | item :: rest =>
      accepted <- callback item ;;
      if accepted then Normal item else find callback rest
  end.

(** Lines 177-186. *)
Definition fromAttachments (message : value) (result : GeneratedContent)
  : completion GeneratedContent :=
  if negb (truthy (imageUrl result)) then
    attachments <- prop message (js "attachments") ;;
    if truthy attachments then
      imageAttachment <-
        match attachments with
        | VArr items => find isImageAttachment items
        | _ => Throw (TypeError (js "message.attachments.find is not a function"))
        end ;;
      url <- optProp imageAttachment (js "url") ;;
      Normal (if truthy url then setImageUrl result url else result)
    else Normal result
  else Normal result.

(** Lines 189-192. *)
Definition fromDirectUrl (message : value) (result : GeneratedContent)
  : completion GeneratedContent :=
  if negb (truthy (imageUrl result)) then
    direct <- prop message (js "image_url") ;;
    Normal (if truthy direct then setImageUrl result direct else result)
  else Normal result.

(** Lines 195-204. *)
Definition fromContentArray (message : value) (result : GeneratedContent)
  : completion GeneratedContent :=
  if negb (truthy (imageUrl result)) then
    content <- prop message (js "content") ;;
    match content with
    | VArr items =>
        found <- firstImageUrlPart items ;;
        Normal match found with
               | Some url => setImageUrl result url
               | None => result
               end
    | _ => Normal result
    end
  else Normal result.

(** Lines 160-205: the other shapes of an answer, in program order. *)
Definition alternativeFormats (data : value) (result : GeneratedContent)
  : completion GeneratedContent :=
  if negb (truthy (imageUrl result)) then
    message <- firstMessage data ;;
    if truthy message then
      result <- fromImages message result ;;
      result <- fromAttachments message result ;;
      result <- fromDirectUrl message result ;;
      fromContentArray message result
    else Normal result
  else Normal result.

(** The message of lines 209-223. *)
Definition noImageMessage (text : value) : jsstring :=
  js "Gemini 2.5 Flash Image Preview 模型没有返回图像。" +++ nl +++ nl
  +++ (match text with
       | VStr ((_ :: _) as t) => js "模型响应：" +++ t +++ nl +++ nl
       | _ => []
       end)
  +++ js "可能的原因：" +++ nl
  +++ js "• 提示词可能被安全过滤器阻止" +++ nl
  +++ js "• 输入图像格式或内容不符合要求" +++ nl
  +++ js "• API 响应格式发生变化" +++ nl
  +++ js "• 模型暂时不可用" +++ nl +++ nl
  +++ js "建议尝试：" +++ nl
  +++ js "• 修改提示词，避免敏感内容" +++ nl
  +++ js "• 使用不同的输入图像" +++ nl
  +++ js "• 稍后重试".

(** Lines 125-228: from the decoded body to the returned value. *)
Definition extractImage (data : value) : completion GeneratedContent :=
  let result := {| imageUrl := VNull; text := VNull |} in
  content <- responseContent data ;;
  result <- fromContent content result ;;
  result <- alternativeFormats data result ;;
  if negb (truthy (imageUrl result))
  then Throw (Error (noImageMessage (text result)))
  else Normal result.

(* ===================================================================== *)
(** ** [editImage] (lines 39-244) *)
(* ===================================================================== *)

Definition networkErrorMessage : jsstring :=
  js "Network error occurred. Please check your internet connection and try again.".

Definition unknownErrorMessage : jsstring :=
  js "An unknown error occurred while communicating with the API.".

(** Lines 114-117: the [throw] for a status outside 200-299. *)
Definition httpError (response : Response) : completion GeneratedContent :=
  errorData <- json response ;;
  error <- prop errorData (js "error") ;;
  message <- optProp error (js "message") ;;
  if truthy message then
    text <- toStr message ;;
    Throw (Error text)
  else
    Throw (Error (js "HTTP " +++ decimal (status response) +++ js ": "
                  +++ statusText response)).

(** The [catch] clause, lines 230-243. *)
Definition rethrow (error : exn) : completion GeneratedContent :=
  match error with
  | ErrorObject _ message =>
      let errorMessage :=
        if includes message (js "fetch") then networkErrorMessage else message in
      Throw (Error errorMessage)
  | NonError _ => Throw (Error unknownErrorMessage)
  end.

(** [fetch] stands for the call [fetch(OPENROUTER_API_URL, ...)] of line
    103 as a function of the request body: the promise either rejects or
    resolves with a response. *)
Definition editImage
    (fetch : RequestBody -> completion Response)
    (base64ImageData mimeType prompt : jsstring)
    (maskBase64 : option jsstring) (secondaryImage : option ImageInput)
  : completion GeneratedContent :=
  tryCatch
    (response <- fetch (requestBody base64ImageData mimeType prompt
                          maskBase64 secondaryImage) ;;
     if negb (ok response) then httpError response
     else
       data <- json response ;;
       extractImage data)
    rethrow.

(* ===================================================================== *)
(** ** [generateVideo] (lines 255-268) *)
(* ===================================================================== *)




(* ===================================================================== *)
(** ** Loading the module (lines 15-25) *)
(* ===================================================================== *)

(** [VITE_API_KEY] is the value of [import.meta.env.VITE_API_KEY] and
    [process] the value of the global of that name, [undefined] when there
    is none:
    [VITE_API_KEY || (typeof process !== 'undefined' && process.env?.API_KEY)]. *)
Definition API_KEY (VITE_API_KEY process : value) : completion value :=
  if truthy VITE_API_KEY then Normal VITE_API_KEY
  else
    match process with
    | VUndef => Normal (VBool false)
    | _ =>
        env <- prop process (js "env") ;;
        optProp env (js "API_KEY")
    end.

Definition missingKeyMessage : jsstring :=
  js "API 密钥未设置。请在项目根目录创建 .env 文件并添加：" +++ nl
  +++ js "VITE_API_KEY=your_openrouter_api_key" +++ nl +++ nl
  +++ js "或者设置环境变量 OPENROUTER_API_KEY。" +++ nl
  +++ js "获取 OpenRouter API 密钥：https://openrouter.ai".

(** Lines 15-25: the key the module keeps, or the error its loading
    throws. *)
Definition loadModule (VITE_API_KEY process : value) : completion value :=
  key <- API_KEY VITE_API_KEY process ;;
  if negb (truthy key) then Throw (Error missingKeyMessage) else Normal key.

(* ===================================================================== *)
(** ** Sample answers and transports *)
(* ===================================================================== *)

Module Samples.

(** [{ choices: [ { message } ] }] *)
Definition answer (message : value) : value :=
  VObj [(js "choices", VArr [VObj [(js "message", message)]])].

(** [{ type: "image_url", image_url: { url } }] *)
Definition imagePart (url : string) : value :=
  VObj [(js "type", VStr (js "image_url"));
        (js "image_url", VObj [(js "url", VStr (js url))])].

(** A transport that answers every request with status 200 and [data]. *)
Definition respond (data : value) (_ : RequestBody) : completion Response :=
  Normal {| status := 200; statusText := js "OK"; json := Normal data |}.

(** A transport that answers with a non-success status and a JSON body. *)
Definition refuse (code : N) (reason : string) (body : value)
    (_ : RequestBody) : completion Response :=
  Normal {| status := code; statusText := js reason; json := Normal body |}.

(** The URL of the first image part of the first message of a request. *)
Definition primaryImageUrl (request : RequestBody) : value :=
  match messages request with
  | {| content := image_url url :: _ |} :: _ => VStr url
  | _ => VUndef
  end.

(** A transport whose answer repeats the primary image of the request
    as the content of the message. *)
Definition echo (request : RequestBody) : completion Response :=
  respond (answer (VObj [(js "content", primaryImageUrl request)])) request.

Definition withText : value :=
  answer (VObj [(js "content", VStr (js "Here is the edited image."));
                (js "images", VArr [imagePart "https://x/y.png"])]).

Definition imagesOnly : value :=
  answer (VObj [(js "images", VArr [imagePart "https://x/y.png"])]).

Definition contentParts : value :=
  answer (VObj [(js "content", VArr [imagePart "https://x/y.png"])]).

Definition refusal : value :=
  answer (VObj [(js "content", VStr (js "Sorry, I can't do that"))]).

Definition inlineDataUri : value :=
  answer (VObj [(js "content",
                 VStr (js "here: data:image/png;base64,QUJD text"))]).

(** Space, 150 times the letter A, two padding characters, line feed. *)
Definition paddedBase64 : jsstring :=
  js " " +++ repeat 65%N 150 +++ js "==" +++ nl.

Definition rawBase64 : value :=
  answer (VObj [(js "content", VStr paddedBase64)]).

Definition emptyMessage : value := answer (VObj []).

(** Attachments: a file, an image entry without [url], a later image
    entry with one; and a direct [image_url] on the message. *)
Definition fileAttachment : value :=
  VObj [(js "type", VStr (js "file"));
        (js "url", VStr (js "https://x/doc.pdf"))].
Definition bareImageAttachment : value :=
  VObj [(js "type", VStr (js "image"))].
Definition lateImageAttachment : value :=
  VObj [(js "content_type", VStr (js "image/png"));
        (js "url", VStr (js "https://x/late.png"))].
Definition attachedMessage : value :=
  VObj [(js "attachments",
         VArr ([fileAttachment] ++ bareImageAttachment :: [lateImageAttachment]));
        (js "image_url", VStr (js "https://x/direct.png"))].

Definition upstreamFetchFailure : value :=
  VObj [(js "error",
         VObj [(js "message", VStr (js "Failed to fetch the input image"))])].

End Samples.

(** Further answers, used to exercise the properties of the extractor. *)
Module Cases.

(** A success status and a body that decodes to [data]. *)
Definition delivered (data : value) : Response :=
  {| status := 200; statusText := js "OK"; json := Normal data |}.

(** [{}]: a body without [choices]. *)
Definition noChoices : value := VObj [].


(** An empty content beside an [images] array, attachments and a direct
    URL. *)
Definition everyShape : value :=
  Samples.answer
    (VObj [(js "content", VStr []);
           (js "images",
            VArr ([VObj [(js "type", VStr (js "text"))]]
                  ++ Samples.imagePart "https://x/first.png"
                     :: [Samples.imagePart "https://x/second.png"]));
           (js "attachments", VArr [Samples.lateImageAttachment]);
           (js "image_url", VStr (js "https://x/direct.png"))]).

(** A [null] entry ahead of a usable image part. *)
Definition nullEntry : value :=
  Samples.answer
    (VObj [(js "images",
            VArr ([] ++ VNull :: [Samples.imagePart "https://x/y.png"]));
           (js "image_url", VStr (js "https://x/direct.png"))]).

(** Attachments given as an object instead of an array. *)
Definition attachmentsObject : value :=
  Samples.answer
    (VObj [(js "attachments",
            VObj [(js "type", VStr (js "image"));
                  (js "url", VStr (js "https://x/a.png"))]);
           (js "image_url", VStr (js "https://x/direct.png"))]).

(** An attachment with a URL beside a direct URL. *)
Definition attachmentAndDirect : value :=
  Samples.answer
    (VObj [(js "content", VStr (js "Done."));
           (js "attachments",
            VArr ([Samples.fileAttachment]
                  ++ Samples.lateImageAttachment :: []));
           (js "image_url", VStr (js "https://x/direct.png"))]).


(** A content that is a number. *)
Definition numericContent : value :=
  Samples.answer
    (VObj [(js "content", VNum {| nonzero := true; spelling := js "42" |});
           (js "images", VArr [Samples.imagePart "https://x/y.png"])]).

(** An error response whose body does not decode. *)
Definition gatewayError (_ : RequestBody) : completion Response :=
  Normal {| status := 502; statusText := js "Bad Gateway";
            json := Throw (ErrorObject (js "SyntaxError")
                             (js "Unexpected token '<'")) |}.

(** An error response whose body names the cause. *)
Definition rateLimited (_ : RequestBody) : completion Response :=
  Normal {| status := 429; statusText := js "Too Many Requests";
            json := Normal (VObj [(js "error",
                      VObj [(js "message", VStr (js "Rate limit exceeded"))])]) |}.

(** An error response with an empty body object. *)
Definition notFound (_ : RequestBody) : completion Response :=
  Normal {| status := 404; statusText := js "Not Found";
            json := Normal (VObj []) |}.

End Cases.

(* ===================================================================== *)
(** ** Notions used to state the properties *)
(* ===================================================================== *)

(** No code unit of the run starts what follows it. *)
Definition stopsAt (f : char16 -> bool) (rest : jsstring) : Prop :=
  match rest with
  | [] => True
  | c :: _ => f c = false
  end.

(** [whole] reads [data:image/<subtype>;base64,<payload>]: a subtype of
    at least one code unit without [;], a payload of at least one code
    unit of the base64 alphabet. *)
Definition IsDataUri (whole subtype payload : jsstring) : Prop :=
  whole = js "data:image/" +++ subtype +++ js ";base64," +++ payload
  /\ subtype <> [] /\ forallb notSemicolon subtype = true
  /\ payload <> [] /\ forallb isBase64Char payload = true.

(** The value of [result] at line 125. *)
Definition blank : GeneratedContent := {| imageUrl := VNull; text := VNull |}.

(** The image a content string yields by itself (lines 138-151): the
    embedded data URI, else the whole trimmed content when it is nothing
    but base64. *)
Definition contentImage (s : jsstring) : option jsstring :=
  match matchDataUri s with
  | Some (whole, _) => Some whole
  | None =>
      if base64Pattern (trim s)
      then Some (js "data:image/png;base64," +++ trim s)
      else None
  end.

(** The value of [result] at line 157. *)
Definition afterContent (content : value) : GeneratedContent :=
  match content with
  | VStr ((_ :: _) as s) =>
      match contentImage s with
      | Some url => {| imageUrl := VStr url; text := VNull |}
      | None => {| imageUrl := VNull; text := VStr s |}
      end
  | _ => blank
  end.

(** The URLs of the image parts, and the texts of the text parts, in the
    order of the message. *)
Definition imageUrls (parts : list ContentPart) : list jsstring :=
  flat_map (fun part => match part with
                        | image_url url => [url]
                        | text_part _ => []
                        end) parts.

Definition texts (parts : list ContentPart) : list jsstring :=
  flat_map (fun part => match part with
                        | image_url _ => []
                        | text_part t => [t]
                        end) parts.

(** Any code unit but the colon. *)
Definition notColon (c : char16) : bool := negb (c =? 58)%N.

Definition imageSuffix : jsstring :=
  js " Please generate and return an image as output.".


(** The content gives no image: it is falsy, or a string in which neither
    a data URI nor a raw base64 body is found. *)
Definition noImageInContent (content : value) : Prop :=
  truthy content = false
  \/ exists s, content = VStr s /\ contentImage s = None.

(** The value of [result.text] when the content gave no image: the
    content when it is a non-empty string. *)
Definition capturedText (content : value) : value :=
  match content with
  | VStr (_ :: _) => content
  | _ => VNull
  end.

(** The loop of lines 167-173 passes over [item]: reading it does not
    throw and it is no [image_url] part with a truthy [url]. *)
Definition passedOver (item : value) : Prop :=
  firstImageUrlPart [item] = Normal None.

(** [message.images], when it is an array, yields no image. *)
Definition noImageInImages (images : value) : Prop :=
  forall items, images = VArr items -> firstImageUrlPart items = Normal None.




(* ===================================================================== *)
(** ** Facts about strings *)
(* ===================================================================== *)

Section StringFacts.

Local Open Scope N_scope.

Lemma stripPrefix_app (p s : jsstring) : stripPrefix p (p +++ s) = Some s.
Proof.
  induction p as [|a p IH]; simpl; [reflexivity|].
  now rewrite N.eqb_refl.
Qed.

Lemma stripPrefix_Some (p s rest : jsstring) :
  stripPrefix p s = Some rest -> s = p +++ rest.
Proof.
  revert s. induction p as [|a p IH]; intros s H; simpl in *.
  - congruence.
  - destruct s as [|b s]; [discriminate|].
    destruct (N.eqb_spec a b) as [->|]; [|discriminate].
    f_equal. now apply IH.
Qed.

Lemma span_spec (f : char16 -> bool) (s run rest : jsstring) :
  span f s = (run, rest) ->
  s = run +++ rest /\ forallb f run = true /\ stopsAt f rest.
Proof.
  revert run rest. induction s as [|c s IH]; intros run rest H; simpl in H.
  - injection H as <- <-. now repeat split.
  - destruct (f c) eqn:Fc.
    + destruct (span f s) as [run' rest'] eqn:E.
      injection H as <- <-.
      destruct (IH _ _ eq_refl) as (-> & Hall & Hstop).
      repeat split; simpl; [now rewrite Fc | exact Hstop].
    + injection H as <- <-. now repeat split.
Qed.

Lemma span_app (f : char16 -> bool) (run rest : jsstring) :
  forallb f run = true ->
  span f (run +++ rest) = (run +++ fst (span f rest), snd (span f rest)).
Proof.
  induction run as [|c run IH]; simpl; intros H.
  - now destruct (span f rest).
  - apply andb_true_iff in H as [Fc Hrun].
    now rewrite Fc, (IH Hrun).
Qed.

Lemma span_stop (f : char16 -> bool) (rest : jsstring) :
  stopsAt f rest -> span f rest = ([], rest).
Proof.
  destruct rest as [|c rest]; simpl; [reflexivity|].
  now intros ->.
Qed.

Lemma span_app_stop (f : char16 -> bool) (run rest : jsstring) :
  forallb f run = true -> stopsAt f rest ->
  span f (run +++ rest) = (run, rest).
Proof.
  intros Hrun Hstop.
  rewrite (span_app _ _ _ Hrun), (span_stop _ _ Hstop); simpl.
  now rewrite app_nil_r.
Qed.

Lemma startsWith_app (p post : jsstring) : startsWith (p +++ post) p = true.
Proof. unfold startsWith. now rewrite stripPrefix_app. Qed.

Lemma includes_start (s p : jsstring) :
  startsWith s p = true -> includes s p = true.
Proof. destruct s; simpl; now intros ->. Qed.

Lemma includes_app (pre p post : jsstring) :
  includes (pre +++ p +++ post) p = true.
Proof.
  induction pre as [|c pre IH].
  - cbn [app]. apply includes_start, startsWith_app.
  - cbn [app includes]. rewrite IH. now destruct (startsWith _ _).
Qed.

End StringFacts.

(* ===================================================================== *)
(** ** Facts about the data-URI expression *)
(* ===================================================================== *)

Section RegexFacts.

Lemma matchDataUri_unfold (s : jsstring) :
  matchDataUri s =
  match matchDataUriAt s with
  | Some m => Some m
  | None => match s with [] => None | _ :: t => matchDataUri t end
  end.
Proof. now destruct s. Qed.

Lemma matchDataUriAt_complete (subtype payload post : jsstring) :
  subtype <> [] -> forallb notSemicolon subtype = true ->
  payload <> [] -> forallb isBase64Char payload = true ->
  matchDataUriAt
    (js "data:image/" +++ subtype +++ js ";base64," +++ payload +++ post)
  = Some (js "data:image/" +++ subtype +++ js ";base64,"
          +++ (payload +++ fst (span isBase64Char post)),
          payload +++ fst (span isBase64Char post)).
Proof.
  intros Hs Hsub Hp Hpay. unfold matchDataUriAt.
  rewrite stripPrefix_app.
  rewrite (span_app_stop notSemicolon subtype
             (js ";base64," +++ payload +++ post) Hsub eq_refl).
  destruct subtype as [|c subtype]; [contradiction|].
  rewrite stripPrefix_app, (span_app _ _ _ Hpay).
  destruct payload as [|d payload]; [contradiction|].
  reflexivity.
Qed.

Lemma matchDataUriAt_sound (s whole group : jsstring) :
  matchDataUriAt s = Some (whole, group) ->
  exists subtype rest,
    s = whole +++ rest /\ IsDataUri whole subtype group
    /\ stopsAt isBase64Char rest.
Proof.
  unfold matchDataUriAt. intros H.
  destruct (stripPrefix (js "data:image/") s) as [s1|] eqn:E1; [|discriminate].
  destruct (span notSemicolon s1) as [subtype s2] eqn:E2.
  destruct subtype as [|c subtype]; [discriminate|].
  destruct (stripPrefix (js ";base64,") s2) as [s3|] eqn:E3; [|discriminate].
  destruct (span isBase64Char s3) as [payload rest] eqn:E4.
  destruct payload as [|d payload]; [discriminate|].
  injection H as <- <-.
  apply stripPrefix_Some in E1, E3.
  apply span_spec in E2 as (-> & Hsub & _).
  apply span_spec in E4 as (-> & Hpay & Hstop).
  exists (c :: subtype), rest. subst s s2.
  repeat split; try assumption; try discriminate.
  simpl. now rewrite <- app_assoc.
Qed.

Lemma matchDataUri_here (s : jsstring) (m : jsstring * jsstring) :
  matchDataUriAt s = Some m -> matchDataUri s = Some m.
Proof. intros H. now rewrite matchDataUri_unfold, H. Qed.

Lemma matchDataUri_later (before s : jsstring) (m : jsstring * jsstring) :
  matchDataUri s = Some m -> exists m', matchDataUri (before +++ s) = Some m'.
Proof.
  intros H. induction before as [|c before [m' IH]]; [now exists m|].
  rewrite matchDataUri_unfold. cbn [app].
  destruct (matchDataUriAt (c :: before +++ s)) as [m0|]; eauto.
Qed.

(** What [match] returns is the leftmost occurrence, with the payload
    extended as far as the base64 alphabet reaches. *)
Lemma matchDataUri_sound (s whole group : jsstring) :
  matchDataUri s = Some (whole, group) ->
  exists before subtype rest,
    s = before +++ whole +++ rest /\ IsDataUri whole subtype group
    /\ stopsAt isBase64Char rest
    /\ forall k, (k < length before)%nat -> matchDataUriAt (skipn k s) = None.
Proof.
  induction s as [|c s IH]; intros H.
  - discriminate.
  - rewrite matchDataUri_unfold in H.
    destruct (matchDataUriAt (c :: s)) as [m|] eqn:E.
    + injection H as ->.
      destruct (matchDataUriAt_sound _ _ _ E) as (subtype & rest & Hs & Hu & Hstop).
      exists [], subtype, rest.
      split; [exact Hs|]. split; [exact Hu|]. split; [exact Hstop|].
      intros k Hk. inversion Hk.
    + destruct (IH H) as (before & subtype & rest & Hs & Hu & Hstop & Hleft).
      exists (c :: before), subtype, rest.
      split; [cbn [app]; now f_equal|].
      split; [exact Hu|]. split; [exact Hstop|].
      intros [|k] Hk; [exact E|].
      cbn [skipn]. apply Hleft. simpl in Hk. lia.
Qed.

End RegexFacts.

(* ===================================================================== *)
(** ** Facts about the extractor *)
(* ===================================================================== *)

Section ExtractionFacts.

Lemma contentImage_truthy (s url : jsstring) :
  contentImage s = Some url -> truthy (VStr url) = true.
Proof.
  unfold contentImage.
  destruct (matchDataUri s) as [[whole group]|] eqn:E.
  - intros [= <-].
    destruct (matchDataUri_sound _ _ _ E) as (_ & subtype & _ & _ & (-> & _) & _).
    reflexivity.
  - destruct (base64Pattern (trim s)); [|discriminate].
    now intros [= <-].
Qed.

Lemma fromContent_string (s : jsstring) :
  s <> [] -> fromContent (VStr s) blank = Normal (afterContent (VStr s)).
Proof.
  destruct s as [|c s]; [contradiction|]. intros _.
  unfold fromContent, afterContent.
  pose proof (contentImage_truthy (c :: s)) as Htruthy.
  unfold contentImage in *.
  cbn [truthy contentPreview base64ImageMatch Js.bind].
  destruct (matchDataUri (c :: s)) as [[whole group]|].
  - cbn [setImageUrl imageUrl]. now rewrite (Htruthy whole eq_refl).
  - destruct (base64Pattern (trim (c :: s))).
    + cbn [setImageUrl imageUrl]. now rewrite (Htruthy _ eq_refl).
    + reflexivity.
Qed.

Lemma fromContent_falsy (content : value) (result : GeneratedContent) :
  truthy content = false -> fromContent content result = Normal result.
Proof. unfold fromContent. now intros ->. Qed.

(** A truthy content that is not a string never gets past line 138. *)
Lemma fromContent_not_string (content : value) (result : GeneratedContent) :
  truthy content = true -> (forall s, content <> VStr s) ->
  exists message, fromContent content result = Throw (TypeError message).
Proof.
  unfold fromContent. intros -> Hns.
  destruct content as [| |b|n|s|items|props];
    try (eexists; reflexivity).
  - now destruct (Hns s).
  - cbn [contentPreview]. destruct (getOwn props (js "substring")) as [v|].
    + destruct (nullish v); eexists; reflexivity.
    + eexists; reflexivity.
Qed.

Lemma fromContent_blank (content : value) (result : GeneratedContent) :
  fromContent content blank = Normal result -> result = afterContent content.
Proof.
  intros H. destruct (truthy content) eqn:T.
  - destruct content as [| |b|n|s|items|props];
      try (destruct (fromContent_not_string _ blank T) as [m Hm];
           [discriminate | congruence]).
    destruct s as [|c s]; [discriminate|].
    rewrite fromContent_string in H by discriminate. congruence.
  - rewrite (fromContent_falsy _ _ T) in H. injection H as <-.
    destruct content as [| |b|n|s|items|props]; try reflexivity; try discriminate.
    now destruct s.
Qed.

(** Peels one statement off a hypothesis that a statement list completed
    normally. *)
Ltac step H :=
  match type of H with
  | Js.bind ?c _ = Normal _ =>
      let E := fresh "E" in
      destruct c eqn:E; cbn [Js.bind] in H; [|discriminate H]
  | (if ?b then _ else _) = Normal _ =>
      let E := fresh "E" in destruct b eqn:E
  | match ?x with _ => _ end = Normal _ =>
      let E := fresh "E" in destruct x eqn:E
  end.

Ltac kept H :=
  repeat step H; try discriminate H; injection H as <-;
  repeat match goal with |- context [match ?x with _ => _ end] => destruct x end;
  reflexivity.

Lemma fromImages_text (message : value) (r r' : GeneratedContent) :
  fromImages message r = Normal r' -> text r' = text r.
Proof. unfold fromImages. intros H. kept H. Qed.

Lemma fromAttachments_text (message : value) (r r' : GeneratedContent) :
  fromAttachments message r = Normal r' -> text r' = text r.
Proof. unfold fromAttachments. intros H. kept H. Qed.

Lemma fromDirectUrl_text (message : value) (r r' : GeneratedContent) :
  fromDirectUrl message r = Normal r' -> text r' = text r.
Proof. unfold fromDirectUrl. intros H. kept H. Qed.

Lemma fromContentArray_text (message : value) (r r' : GeneratedContent) :
  fromContentArray message r = Normal r' -> text r' = text r.
Proof. unfold fromContentArray. intros H. kept H. Qed.

(** No statement of lines 160-205 assigns [result.text]. *)
Lemma alternativeFormats_text (data : value) (r r' : GeneratedContent) :
  alternativeFormats data r = Normal r' -> text r' = text r.
Proof.
  unfold alternativeFormats. intros H.
  destruct (negb (truthy (imageUrl r))); [|now injection H as <-].
  step H. destruct (truthy a); [|now injection H as <-].
  do 3 step H.
  apply fromContentArray_text in H. apply fromDirectUrl_text in E2.
  apply fromAttachments_text in E1. apply fromImages_text in E0.
  congruence.
Qed.

Lemma alternativeFormats_skip (data : value) (r : GeneratedContent) :
  truthy (imageUrl r) = true -> alternativeFormats data r = Normal r.
Proof. unfold alternativeFormats. now intros ->. Qed.

(** Every normal completion of the extractor, taken apart. *)
Lemma extractImage_Normal (data : value) (result : GeneratedContent) :
  extractImage data = Normal result ->
  exists content,
    responseContent data = Normal content
    /\ alternativeFormats data (afterContent content) = Normal result
    /\ truthy (imageUrl result) = true.
Proof.
  unfold extractImage. intros H.
  step H. step H. step H. step H; [discriminate|].
  injection H as <-.
  apply fromContent_blank in E0. subst.
  exists a. repeat split; try assumption.
  now apply negb_false_iff.
Qed.

(** A content string that yields an image settles the result. *)
Lemma extractImage_from_content (data : value) (s url : jsstring) :
  responseContent data = Normal (VStr s) ->
  contentImage s = Some url ->
  extractImage data = Normal {| imageUrl := VStr url; text := VNull |}.
Proof.
  intros Hc Hu. unfold extractImage. rewrite Hc. cbn [Js.bind].
  assert (Hs : s <> []).
  { intros ->. discriminate Hu. }
  fold blank. rewrite (fromContent_string s Hs). cbn [Js.bind].
  assert (Ha : afterContent (VStr s)
               = {| imageUrl := VStr url; text := VNull |}).
  { unfold afterContent. destruct s; [contradiction|]. now rewrite Hu. }
  rewrite Ha, alternativeFormats_skip by exact (contentImage_truthy _ _ Hu).
  cbn [Js.bind imageUrl]. now rewrite (contentImage_truthy _ _ Hu).
Qed.

End ExtractionFacts.

(* ===================================================================== *)
(** ** Facts about the whole call *)
(* ===================================================================== *)

Section CallFacts.

Lemma httpError_throws (response : Response) :
  exists e, httpError response = Throw e.
Proof.
  unfold httpError.
  destruct (json response) as [errorData|e]; cbn [Js.bind]; [|eauto].
  destruct (prop errorData (js "error")) as [error|e]; cbn [Js.bind]; [|eauto].
  destruct (optProp error (js "message")) as [message|e]; cbn [Js.bind]; [|eauto].
  destruct (truthy message); [|eauto].
  destruct (toStr message); cbn [Js.bind]; eauto.
Qed.

Lemma rethrow_throws (error : exn) :
  exists message, rethrow error = Throw (Error message).
Proof. destruct error; cbn [rethrow]; eauto. Qed.

(** The [catch] clause changes a message exactly when it contains
    [fetch]. *)
Lemma rethrow_Error (name message : jsstring) :
  rethrow (ErrorObject name message)
  = Throw (Error (if includes message (js "fetch")
                  then networkErrorMessage else message)).
Proof. reflexivity. Qed.

(** Whatever raised it, an error whose message contains [fetch] reaches
    the caller as the connectivity message. *)
Lemma rethrow_fetch (name before after : jsstring) :
  rethrow (ErrorObject name (before +++ js "fetch" +++ after))
  = Throw (Error networkErrorMessage).
Proof. now rewrite rethrow_Error, includes_app. Qed.

(** A value is returned only for a response with a success status whose
    body decodes and from which the extractor obtains a result. *)
Lemma editImage_Normal
    (fetch : RequestBody -> completion Response)
    (base64ImageData mimeType prompt : jsstring)
    (maskBase64 : option jsstring) (secondaryImage : option ImageInput)
    (result : GeneratedContent) :
  editImage fetch base64ImageData mimeType prompt maskBase64 secondaryImage
  = Normal result ->
  exists response data,
    fetch (requestBody base64ImageData mimeType prompt maskBase64
             secondaryImage) = Normal response
    /\ ok response = true
    /\ json response = Normal data
    /\ extractImage data = Normal result.
Proof.
  unfold editImage, tryCatch. intros H.
  destruct (fetch _) as [response|e] eqn:F; cbn [Js.bind] in H.
  - destruct (ok response) eqn:K; cbn [negb] in H.
    + destruct (json response) as [data|e] eqn:J; cbn [Js.bind] in H.
      * destruct (extractImage data) as [r|e] eqn:X.
        -- injection H as ->. now exists response, data.
        -- destruct (rethrow_throws e) as [m Hm]. congruence.
      * destruct (rethrow_throws e) as [m Hm]. congruence.
    + destruct (httpError_throws response) as [e He]. rewrite He in H.
      destruct (rethrow_throws e) as [m Hm]. congruence.
  - destruct (rethrow_throws e) as [m Hm]. congruence.
Qed.

Lemma editImage_respond (data : value)
    (base64ImageData mimeType prompt : jsstring)
    (maskBase64 : option jsstring) (secondaryImage : option ImageInput) :
  editImage (Samples.respond data) base64ImageData mimeType prompt
    maskBase64 secondaryImage
  = tryCatch (extractImage data) rethrow.
Proof. reflexivity. Qed.

End CallFacts.

(* ===================================================================== *)
(** ** The result of a successful extraction *)
(* ===================================================================== *)

(** C1, as stated, fails: an answer whose message has a text content and
    an [images] array is returned with both fields set. *)
Lemma C1_counterexample :
  editImage (Samples.respond Samples.withText)
    (js "QUJD") (js "image/png") (js "make it blue") None None
  = Normal {| imageUrl := VStr (js "https://x/y.png");
              text := VStr (js "Here is the edited image.") |}.
Proof. vm_compute. reflexivity. Qed.

(** C1, amended: whenever [editImage] returns, the image field is set; the
    text field is empty when the image was taken out of the content string
    (embedded data URI or raw base64), and otherwise it holds the content
    string, if the content was a non-empty string. *)
Theorem C1_text_dropped_only_for_image_in_content
    (fetch : RequestBody -> completion Response)
    (base64ImageData mimeType prompt : jsstring)
    (maskBase64 : option jsstring) (secondaryImage : option ImageInput)
    (result : GeneratedContent) :
  editImage fetch base64ImageData mimeType prompt maskBase64 secondaryImage
  = Normal result ->
  exists response data content,
    fetch (requestBody base64ImageData mimeType prompt maskBase64
             secondaryImage) = Normal response
    /\ json response = Normal data
    /\ responseContent data = Normal content
    /\ truthy (imageUrl result) = true
    /\ match content with
       | VStr ((_ :: _) as s) =>
           match contentImage s with
           | Some url => imageUrl result = VStr url /\ text result = VNull
           | None => text result = VStr s
           end
       | _ => text result = VNull
       end.
Proof.
  intros H.
  destruct (editImage_Normal _ _ _ _ _ _ _ H) as (response & data & F & _ & J & X).
  destruct (extractImage_Normal _ _ X) as (content & C & A & T).
  exists response, data, content. repeat split; try assumption.
  pose proof (alternativeFormats_text _ _ _ A) as Htext.
  unfold afterContent in *.
  destruct content as [| |b|n|s|items|props]; try exact Htext.
  destruct s as [|c s]; [exact Htext|].
  destruct (contentImage (c :: s)) as [url|] eqn:U; [|exact Htext].
  rewrite alternativeFormats_skip in A by exact (contentImage_truthy _ _ U).
  injection A as <-. now split.
Qed.

Lemma C1_witness :
  exists response data content,
    Samples.respond Samples.withText
      (requestBody (js "QUJD") (js "image/png") (js "make it blue") None None)
    = Normal response
    /\ json response = Normal data
    /\ responseContent data = Normal content
    /\ truthy (VStr (js "https://x/y.png")) = true
    /\ match content with
       | VStr ((_ :: _) as s) =>
           match contentImage s with
           | Some url =>
               VStr (js "https://x/y.png") = VStr url
               /\ VStr (js "Here is the edited image.") = VNull
           | None => VStr (js "Here is the edited image.") = VStr s
           end
       | _ => VStr (js "Here is the edited image.") = VNull
       end.
Proof.
  exact (C1_text_dropped_only_for_image_in_content
           (Samples.respond Samples.withText)
           (js "QUJD") (js "image/png") (js "make it blue") None None
           {| imageUrl := VStr (js "https://x/y.png");
              text := VStr (js "Here is the edited image.") |}
           eq_refl).
Defined.

(* ===================================================================== *)
(** ** A content that is an array of parts *)
(* ===================================================================== *)

(** C2: an answer whose message content is an array of parts never has
    its parts scanned.  Any array is truthy, so line 138 calls [match] on
    it and the call ends with the engine's [TypeError], whose message is
    what the caller receives. *)
Theorem C2_content_array_throws_before_scan
    (data : value) (items : list value)
    (base64ImageData mimeType prompt : jsstring)
    (maskBase64 : option jsstring) (secondaryImage : option ImageInput) :
  responseContent data = Normal (VArr items) ->
  extractImage data
  = Throw (TypeError (js "responseContent.match is not a function"))
  /\ editImage (Samples.respond data) base64ImageData mimeType prompt
       maskBase64 secondaryImage
     = Throw (Error (js "responseContent.match is not a function")).
Proof.
  intros H.
  assert (X : extractImage data
              = Throw (TypeError (js "responseContent.match is not a function"))).
  { unfold extractImage. now rewrite H. }
  split; [exact X|].
  now rewrite editImage_respond, X.
Qed.

Lemma C2_witness :
  extractImage Samples.contentParts
  = Throw (TypeError (js "responseContent.match is not a function"))
  /\ editImage (Samples.respond Samples.contentParts)
       (js "QUJD") (js "image/png") (js "make it blue") None None
     = Throw (Error (js "responseContent.match is not a function")).
Proof.
  exact (C2_content_array_throws_before_scan Samples.contentParts
           [Samples.imagePart "https://x/y.png"]
           (js "QUJD") (js "image/png") (js "make it blue") None None
           eq_refl).
Defined.

(* ===================================================================== *)
(** ** A data URI embedded in the content string *)
(* ===================================================================== *)

(** C3: when the content is a string in which
    [data:image/<subtype>;base64,<payload>] occurs, [match] finds an
    occurrence of that form (the leftmost one, its payload running as far
    as the base64 alphabet does), and the call returns exactly that
    substring as the image, with no text: the result is fixed by the
    content alone, whatever else the message holds. *)
Theorem C3_embedded_data_uri
    (data : value) (before subtype payload after : jsstring) :
  let content :=
    before +++ js "data:image/" +++ subtype +++ js ";base64,"
    +++ payload +++ after in
  responseContent data = Normal (VStr content) ->
  subtype <> [] -> forallb notSemicolon subtype = true ->
  payload <> [] -> forallb isBase64Char payload = true ->
  exists whole group,
    matchDataUri content = Some (whole, group)
    /\ (exists pre sub rest,
          content = pre +++ whole +++ rest
          /\ IsDataUri whole sub group
          /\ stopsAt isBase64Char rest
          /\ forall k, (k < length pre)%nat ->
               matchDataUriAt (skipn k content) = None)
    /\ extractImage data
       = Normal {| imageUrl := VStr whole; text := VNull |}.
Proof.
  intros content Hc Hs Hsub Hp Hpay. subst content.
  pose proof (matchDataUriAt_complete subtype payload after Hs Hsub Hp Hpay) as Hat.
  apply matchDataUri_here in Hat.
  destruct (matchDataUri_later before _ _ Hat) as [[whole group] Hm].
  exists whole, group. split; [exact Hm|].
  split; [exact (matchDataUri_sound _ _ _ Hm)|].
  apply (extractImage_from_content data _ whole Hc).
  unfold contentImage. now rewrite Hm.
Qed.

Lemma C3_witness :
  exists whole group,
    matchDataUri (js "here: data:image/png;base64,QUJD text")
    = Some (whole, group)
    /\ (exists pre sub rest,
          js "here: data:image/png;base64,QUJD text" = pre +++ whole +++ rest
          /\ IsDataUri whole sub group
          /\ stopsAt isBase64Char rest
          /\ forall k, (k < length pre)%nat ->
               matchDataUriAt
                 (skipn k (js "here: data:image/png;base64,QUJD text")) = None)
    /\ extractImage Samples.inlineDataUri
       = Normal {| imageUrl := VStr whole; text := VNull |}.
Proof.
  exact (C3_embedded_data_uri Samples.inlineDataUri
           (js "here: ") (js "png") (js "QUJD") (js " text")
           eq_refl
           ltac:(discriminate) eq_refl ltac:(discriminate) eq_refl).
Defined.

(** The example of the specification: the substring up to the first code
    unit outside the base64 alphabet. *)
Example inline_data_uri_extracted :
  extractImage Samples.inlineDataUri
  = Normal {| imageUrl := VStr (js "data:image/png;base64,QUJD");
              text := VNull |}.
Proof. vm_compute. reflexivity. Qed.

(* ===================================================================== *)
(** ** Round trip of the primary image *)
(* ===================================================================== *)

(** C4: for a MIME type [image/<subtype>] with a non-empty subtype free
    of [;] and a non-empty payload over the base64 alphabet, the request
    carries the primary image as [data:image/<subtype>;base64,<payload>],
    and an answer whose content repeats that string makes the call return
    the very same string. *)
Theorem C4_primary_image_round_trip
    (subtype payload prompt : jsstring)
    (maskBase64 : option jsstring) (secondaryImage : option ImageInput) :
  subtype <> [] -> forallb notSemicolon subtype = true ->
  payload <> [] -> forallb isBase64Char payload = true ->
  let sent :=
    js "data:image/" +++ subtype +++ js ";base64," +++ payload in
  Samples.primaryImageUrl
    (requestBody payload (js "image/" +++ subtype) prompt maskBase64
       secondaryImage) = VStr sent
  /\ editImage Samples.echo payload (js "image/" +++ subtype) prompt
       maskBase64 secondaryImage
     = Normal {| imageUrl := VStr sent; text := VNull |}.
Proof.
  intros Hs Hsub Hp Hpay sent.
  split; [reflexivity|].
  change (editImage Samples.echo payload (js "image/" +++ subtype) prompt
            maskBase64 secondaryImage)
    with (tryCatch
            (extractImage
               (Samples.answer (VObj [(js "content", VStr sent)])))
            rethrow).
  rewrite (extractImage_from_content
             (Samples.answer (VObj [(js "content", VStr sent)]))
             sent sent eq_refl); [reflexivity|].
  unfold contentImage, sent.
  pose proof (matchDataUriAt_complete subtype payload [] Hs Hsub Hp Hpay) as Hat.
  cbn [span fst] in Hat. rewrite !app_nil_r in Hat.
  now rewrite (matchDataUri_here _ _ Hat).
Qed.

Lemma C4_witness :
  Samples.primaryImageUrl
    (requestBody (js "QUJD") (js "image/" +++ js "png") (js "make it blue")
       None None) = VStr (js "data:image/" +++ js "png" +++ js ";base64," +++ js "QUJD")
  /\ editImage Samples.echo (js "QUJD") (js "image/" +++ js "png")
       (js "make it blue") None None
     = Normal {| imageUrl :=
                   VStr (js "data:image/" +++ js "png" +++ js ";base64,"
                         +++ js "QUJD");
                 text := VNull |}.
Proof.
  exact (C4_primary_image_round_trip (js "png") (js "QUJD") (js "make it blue")
           None None
           ltac:(discriminate) eq_refl ltac:(discriminate) eq_refl).
Defined.

(* ===================================================================== *)
(** ** The outgoing message *)
(* ===================================================================== *)

(** C5: with a mask, the message is the primary image, the mask as a PNG
    data URI, the secondary image when there is one, and then one text
    part; the text is the masked-edit template around the quoted prompt
    (followed by the fixed suffix) and is never the prompt alone. *)
Theorem C5_masked_request
    (base64ImageData mimeType prompt mask : jsstring)
    (secondaryImage : option ImageInput) :
  mask <> [] ->
  let sent :=
    (js "Apply the following instruction only to the masked area of the image: "
     +++ quote +++ prompt +++ quote +++ js ". Preserve the unmasked area.")
    +++ imageSuffix in
  let parts :=
    messageContent base64ImageData mimeType prompt (Some mask) secondaryImage in
  parts
  = [image_url (js "data:" +++ mimeType +++ js ";base64," +++ base64ImageData);
     image_url (js "data:image/png;base64," +++ mask)]
    ++ match secondaryImage with
       | Some img =>
           [image_url (js "data:" +++ Api.mimeType img +++ js ";base64,"
                       +++ base64 img)]
       | None => []
       end
    ++ [text_part sent]
  /\ length (imageUrls parts)
     = match secondaryImage with Some _ => 3%nat | None => 2%nat end
  /\ texts parts = [sent]
  /\ sent <> prompt
  /\ sent <> prompt +++ imageSuffix.
Proof.
  intros Hmask sent parts.
  destruct mask as [|c mask]; [contradiction|].
  assert (Hlong : forall tail : jsstring,
             (length tail <= length imageSuffix)%nat -> sent <> prompt +++ tail).
  { intros tail Htail Heq. apply (f_equal (@length _)) in Heq.
    unfold sent in Heq. rewrite !length_app in Heq.
    change (length quote) with 1%nat in Heq. lia. }
  assert (Hparts : parts
    = [image_url (js "data:" +++ mimeType +++ js ";base64," +++ base64ImageData);
       image_url (js "data:image/png;base64," +++ c :: mask)]
      ++ match secondaryImage with
         | Some img =>
             [image_url (js "data:" +++ Api.mimeType img +++ js ";base64,"
                         +++ base64 img)]
         | None => []
         end
      ++ [text_part sent]).
  { subst parts sent.
    unfold messageContent, enhancedPrompt, fullPrompt, imageSuffix.
    cbn [maskGiven]. reflexivity. }
  split; [exact Hparts|]. rewrite Hparts. clearbody sent. clear Hparts parts.
  split; [destruct secondaryImage; reflexivity|].
  split; [destruct secondaryImage; reflexivity|].
  split.
  - rewrite <- (app_nil_r prompt). apply Hlong. apply Nat.le_0_l.
  - apply Hlong. apply Nat.le_refl.
Qed.

Lemma C5_witness :
  js "MASK" <> []
  /\ texts (messageContent (js "QUJD") (js "image/png") (js "make it blue")
              (Some (js "MASK"))
              (Some {| base64 := js "U0VD"; mimeType := js "image/jpeg" |}))
     = [(js "Apply the following instruction only to the masked area of the image: "
         +++ quote +++ js "make it blue" +++ quote
         +++ js ". Preserve the unmasked area.") +++ imageSuffix].
Proof.
  split; [discriminate|].
  exact (proj1 (proj2 (proj2
           (C5_masked_request (js "QUJD") (js "image/png") (js "make it blue")
              (js "MASK")
              (Some {| base64 := js "U0VD"; mimeType := js "image/jpeg" |})
              ltac:(discriminate))))).
Defined.

(** C6: without a mask the one text part, which closes the message, is
    the prompt followed by the fixed suffix; with or without a mask the
    one text part ends with that suffix. *)
Theorem C6_prompt_suffix
    (base64ImageData mimeType prompt : jsstring)
    (maskBase64 : option jsstring) (secondaryImage : option ImageInput) :
  maskGiven maskBase64 = false ->
  (let parts :=
     messageContent base64ImageData mimeType prompt maskBase64 secondaryImage in
   texts parts = [prompt +++ imageSuffix]
   /\ exists images, parts = images ++ [text_part (prompt +++ imageSuffix)]
                     /\ texts images = [])
  /\ forall anyMask : option jsstring,
       texts (messageContent base64ImageData mimeType prompt anyMask
                secondaryImage)
       = [fullPrompt prompt anyMask +++ imageSuffix].
Proof.
  intros Hmask.
  assert (Htexts : forall anyMask : option jsstring,
             texts (messageContent base64ImageData mimeType prompt anyMask
                      secondaryImage)
             = [fullPrompt prompt anyMask +++ imageSuffix]).
  { intros anyMask. unfold messageContent, enhancedPrompt, imageSuffix.
    destruct anyMask as [[|c mask]|]; destruct secondaryImage; reflexivity. }
  assert (Hfull : fullPrompt prompt maskBase64 = prompt).
  { unfold fullPrompt. now rewrite Hmask. }
  split; [|exact Htexts].
  cbv zeta. split.
  - now rewrite Htexts, Hfull.
  - assert (Hassoc : forall a b c d : list ContentPart,
               a ++ b ++ c ++ d = (a ++ b ++ c) ++ d).
    { intros a b c d. now rewrite !app_assoc. }
    unfold messageContent, enhancedPrompt, imageSuffix.
    rewrite Hfull. eexists. split; [apply Hassoc|].
    destruct maskBase64 as [[|c mask]|]; try discriminate Hmask;
      destruct secondaryImage; reflexivity.
Qed.

Lemma C6_witness :
  maskGiven None = false
  /\ texts (messageContent (js "QUJD") (js "image/png") (js "make it blue")
              None None)
     = [js "make it blue" +++ imageSuffix].
Proof.
  split; [reflexivity|].
  exact (proj1 (proj1
           (C6_prompt_suffix (js "QUJD") (js "image/png") (js "make it blue")
              None None eq_refl))).
Defined.

(* ===================================================================== *)
(** ** A content that is nothing but base64 *)
(* ===================================================================== *)

Lemma base64Pattern_complete (digits padding : jsstring) :
  forallb isBase64Digit digits = true -> (100 <= length digits)%nat ->
  padding = [] \/ padding = js "=" \/ padding = js "==" ->
  base64Pattern (digits +++ padding) = true.
Proof.
  intros Hd Hlen Hpad. unfold base64Pattern.
  assert (Hstop : stopsAt isBase64Digit padding).
  { destruct Hpad as [->|[->| ->]]; reflexivity. }
  rewrite (span_app_stop _ _ _ Hd Hstop).
  apply andb_true_iff. split.
  - apply N.leb_le. lia.
  - destruct Hpad as [->|[->| ->]]; reflexivity.
Qed.

Lemma base64Pattern_sound (s : jsstring) :
  base64Pattern s = true ->
  exists digits padding,
    s = digits +++ padding /\ forallb isBase64Digit digits = true
    /\ (100 <= length digits)%nat
    /\ (padding = [] \/ padding = js "=" \/ padding = js "==").
Proof.
  unfold base64Pattern.
  destruct (span isBase64Digit s) as [digits padding] eqn:E.
  apply span_spec in E as (-> & Hd & _).
  intros H. apply andb_true_iff in H as [Hlen Hpad].
  apply N.leb_le in Hlen.
  exists digits, padding. repeat split; try assumption; try lia.
  destruct padding as [|p [|q [|r padding]]]; try discriminate.
  - now left.
  - apply N.eqb_eq in Hpad as ->. right. now left.
  - apply andb_true_iff in Hpad as [Hp Hq].
    apply N.eqb_eq in Hp as ->. apply N.eqb_eq in Hq as ->. right. now right.
Qed.

(** What [trim] removes is white space on either side. *)
Lemma dropWhile_split (f : char16 -> bool) (s : jsstring) :
  exists dropped, s = dropped +++ dropWhile f s /\ forallb f dropped = true.
Proof.
  induction s as [|c s (dropped & Hs & Hd)]; cbn [dropWhile].
  - now exists [].
  - destruct (f c) eqn:Fc.
    + exists (c :: dropped). cbn [app forallb]. rewrite Fc, Hd.
      split; [now f_equal | reflexivity].
    + now exists [].
Qed.

Lemma forallb_rev (f : char16 -> bool) (s : jsstring) :
  forallb f s = true -> forallb f (List.rev s) = true.
Proof.
  rewrite !forallb_forall. intros H c Hc. apply H. now apply in_rev.
Qed.

Lemma trim_split (s : jsstring) :
  exists left right,
    s = left +++ trim s +++ right
    /\ forallb isWhiteSpace left = true /\ forallb isWhiteSpace right = true.
Proof.
  unfold trim.
  destruct (dropWhile_split isWhiteSpace s) as (left & Hs & Hleft).
  destruct (dropWhile_split isWhiteSpace (List.rev (dropWhile isWhiteSpace s)))
    as (right & Hr & Hright).
  exists left, (List.rev right). repeat split.
  - rewrite <- rev_app_distr, <- Hr, rev_involutive. exact Hs.
  - exact Hleft.
  - now apply forallb_rev.
Qed.

Lemma forallb_impl (f g : char16 -> bool) (s : jsstring) :
  (forall c, f c = true -> g c = true) ->
  forallb f s = true -> forallb g s = true.
Proof.
  intros Himp. rewrite !forallb_forall. auto.
Qed.

(** A colon is neither white space nor part of the base64 alphabet. *)
Lemma whitespace_not_colon (c : char16) :
  isWhiteSpace c = true -> notColon c = true.
Proof.
  unfold notColon. destruct (N.eqb_spec c 58) as [->|]; [discriminate|reflexivity].
Qed.

Lemma base64_not_colon (c : char16) :
  isBase64Char c = true -> notColon c = true.
Proof.
  unfold notColon. destruct (N.eqb_spec c 58) as [->|]; [discriminate|reflexivity].
Qed.

(** The first condition of C7 follows from the second: a content made of
    white space around base64 has no colon, hence no data URI. *)
Lemma raw_base64_has_no_data_uri (s : jsstring) :
  base64Pattern (trim s) = true -> matchDataUri s = None.
Proof.
  intros Hraw.
  destruct (base64Pattern_sound _ Hraw) as (digits & padding & Htrim & Hd & _ & Hpad).
  destruct (trim_split s) as (left & right & Hs & Hleft & Hright).
  assert (Hcolon : forallb notColon s = true).
  { rewrite Hs, Htrim, !forallb_app.
    rewrite (forallb_impl _ _ _ whitespace_not_colon Hleft).
    rewrite (forallb_impl _ _ _ whitespace_not_colon Hright).
    rewrite (forallb_impl isBase64Digit _ digits); [|  | exact Hd].
    - now destruct Hpad as [->|[->| ->]].
    - intros c Hc. apply base64_not_colon. unfold isBase64Char. now rewrite Hc. }
  destruct (matchDataUri s) as [[whole group]|] eqn:E; [|reflexivity].
  destruct (matchDataUri_sound _ _ _ E) as (before & subtype & rest & Hw & (-> & _) & _).
  rewrite Hw, !forallb_app in Hcolon.
  change (js "data:image/") with (js "data" +++ 58%N :: js "image/") in Hcolon.
  rewrite forallb_app in Hcolon. cbn [forallb] in Hcolon.
  change (notColon 58%N) with false in Hcolon.
  repeat match type of Hcolon with
         | context [forallb ?f ?l] => destruct (forallb f l)
         end; discriminate Hcolon.
Qed.

(** C7: when the content is a string without a data-URI match whose
    trimmed form is at least 100 base64 digits followed by at most two
    [=], the call returns [data:image/png;base64,] followed by the trimmed
    content, and no text. *)
Theorem C7_raw_base64
    (data : value) (s digits padding : jsstring) :
  responseContent data = Normal (VStr s) ->
  matchDataUri s = None ->
  trim s = digits +++ padding ->
  forallb isBase64Digit digits = true -> (100 <= length digits)%nat ->
  padding = [] \/ padding = js "=" \/ padding = js "==" ->
  extractImage data
  = Normal {| imageUrl := VStr (js "data:image/png;base64," +++ trim s);
              text := VNull |}.
Proof.
  intros Hc Hnone Htrim Hd Hlen Hpad.
  apply (extractImage_from_content data s _ Hc).
  unfold contentImage. rewrite Hnone.
  now rewrite Htrim, (base64Pattern_complete _ _ Hd Hlen Hpad), <- Htrim.
Qed.

Lemma C7_witness :
  extractImage Samples.rawBase64
  = Normal {| imageUrl := VStr (js "data:image/png;base64,"
                                +++ trim Samples.paddedBase64);
              text := VNull |}.
Proof.
  refine (C7_raw_base64 Samples.rawBase64 Samples.paddedBase64
            (repeat 65%N 150) (js "==") eq_refl _ _ _ _ _).
  - vm_compute. reflexivity.
  - vm_compute. reflexivity.
  - vm_compute. reflexivity.
  - vm_compute. lia.
  - right. right. reflexivity.
Defined.

(* ===================================================================== *)
(** ** A message without content *)
(* ===================================================================== *)

(** C8, as stated, fails: a message without a content field but with an
    [images] array yields that image. *)
Lemma C8_counterexample :
  responseContent Samples.imagesOnly = Normal VUndef
  /\ extractImage Samples.imagesOnly
     = Normal {| imageUrl := VStr (js "https://x/y.png"); text := VNull |}.
Proof. split; vm_compute; reflexivity. Qed.

(** C8, amended: when the message has no content field, no text is
    captured and the extractor goes straight on to the alternative shapes
    of the message; it returns the image they yield, and when they yield
    none it fails with the extraction-failure error, which then quotes no
    model text. *)
Theorem C8_absent_content_goes_to_alternative_formats (data : value) :
  responseContent data = Normal VUndef ->
  match alternativeFormats data blank with
  | Normal result =>
      text result = VNull
      /\ extractImage data
         = if truthy (imageUrl result) then Normal result
           else Throw (Error (noImageMessage VNull))
  | Throw e => extractImage data = Throw e
  end.
Proof.
  intros Hc. unfold extractImage. rewrite Hc. cbn [Js.bind].
  rewrite fromContent_falsy by reflexivity. cbn [Js.bind]. fold blank.
  destruct (alternativeFormats data blank) as [result|e] eqn:A; [|reflexivity].
  pose proof (alternativeFormats_text _ _ _ A) as Htext. cbn [text blank] in Htext.
  split; [exact Htext|].
  cbn [Js.bind]. rewrite Htext. now destruct (truthy (imageUrl result)).
Qed.

Lemma C8_witness :
  match alternativeFormats Samples.emptyMessage blank with
  | Normal result =>
      text result = VNull
      /\ extractImage Samples.emptyMessage
         = if truthy (imageUrl result) then Normal result
           else Throw (Error (noImageMessage VNull))
  | Throw e => extractImage Samples.emptyMessage = Throw e
  end.
Proof.
  exact (C8_absent_content_goes_to_alternative_formats Samples.emptyMessage
           eq_refl).
Defined.

(** With no field to take an image from, the call fails with the fixed
    diagnostic. *)
Example empty_message_fails :
  extractImage Samples.emptyMessage = Throw (Error (noImageMessage VNull)).
Proof. vm_compute. reflexivity. Qed.

(** The captured text is quoted by the diagnostic. *)
Example refusal_is_quoted :
  extractImage Samples.refusal
  = Throw (Error (noImageMessage (VStr (js "Sorry, I can't do that"))))
  /\ includes (noImageMessage (VStr (js "Sorry, I can't do that")))
       (js "Sorry, I can't do that") = true.
Proof. split; vm_compute; reflexivity. Qed.

(* ===================================================================== *)
(** ** Failures *)
(* ===================================================================== *)

(** A non-success status whose error body carries a string message: the
    caller receives that message unless it contains [fetch]. *)
Lemma http_error_message
    (response : Response) (body error : value) (message : jsstring)
    (base64ImageData mimeType prompt : jsstring)
    (maskBase64 : option jsstring) (secondaryImage : option ImageInput) :
  ok response = false ->
  json response = Normal body ->
  prop body (js "error") = Normal error ->
  optProp error (js "message") = Normal (VStr message) ->
  message <> [] ->
  editImage (fun _ => Normal response) base64ImageData mimeType prompt
    maskBase64 secondaryImage
  = Throw (Error (if includes message (js "fetch")
                  then networkErrorMessage else message)).
Proof.
  intros Hok Hjson Herr Hmsg Hne.
  unfold editImage. cbn [Js.bind]. rewrite Hok. cbn [negb].
  unfold httpError. rewrite Hjson. cbn [Js.bind].
  rewrite Herr. cbn [Js.bind]. rewrite Hmsg. cbn [Js.bind].
  destruct message as [|c message]; [contradiction|].
  reflexivity.
Qed.

(** A non-success status whose body has no error message: the caller
    receives the status line, unless the status text contains [fetch]. *)
Lemma http_error_status
    (response : Response) (body error message : value)
    (base64ImageData mimeType prompt : jsstring)
    (maskBase64 : option jsstring) (secondaryImage : option ImageInput) :
  ok response = false ->
  json response = Normal body ->
  prop body (js "error") = Normal error ->
  optProp error (js "message") = Normal message ->
  truthy message = false ->
  let line :=
    js "HTTP " +++ decimal (status response) +++ js ": "
    +++ statusText response in
  editImage (fun _ => Normal response) base64ImageData mimeType prompt
    maskBase64 secondaryImage
  = Throw (Error (if includes line (js "fetch")
                  then networkErrorMessage else line)).
Proof.
  intros Hok Hjson Herr Hmsg Hfalsy line.
  unfold editImage. cbn [Js.bind]. rewrite Hok. cbn [negb].
  unfold httpError. rewrite Hjson. cbn [Js.bind].
  rewrite Herr. cbn [Js.bind]. rewrite Hmsg. cbn [Js.bind].
  rewrite Hfalsy. reflexivity.
Qed.

(** A rejected [fetch]: the message is replaced exactly when it contains
    [fetch], whatever raised it. *)
Lemma fetch_rejection
    (name message : jsstring)
    (base64ImageData mimeType prompt : jsstring)
    (maskBase64 : option jsstring) (secondaryImage : option ImageInput) :
  editImage (fun _ => Throw (ErrorObject name message)) base64ImageData
    mimeType prompt maskBase64 secondaryImage
  = Throw (Error (if includes message (js "fetch")
                  then networkErrorMessage else message)).
Proof. reflexivity. Qed.

(** C9: a response with status 400 whose error body reads
    [Failed to fetch the input image] is not a failure of the transport,
    yet the caller receives the connectivity message instead of the
    message of the body. *)
Theorem C9_http_error_mentioning_fetch_is_replaced :
  editImage
    (Samples.refuse 400 "Bad Request" Samples.upstreamFetchFailure)
    (js "QUJD") (js "image/png") (js "make it blue") None None
  = Throw (Error networkErrorMessage)
  /\ networkErrorMessage <> js "Failed to fetch the input image".
Proof. split; [vm_compute; reflexivity | discriminate]. Qed.

(** The same replacement hits the diagnostic of the extractor when the
    text of the model contains [fetch]. *)
Example diagnostic_mentioning_fetch_is_replaced :
  let data :=
    Samples.answer
      (VObj [(js "content", VStr (js "I could not fetch that picture."))]) in
  extractImage data
  = Throw (Error (noImageMessage (VStr (js "I could not fetch that picture."))))
  /\ editImage (Samples.respond data)
       (js "QUJD") (js "image/png") (js "make it blue") None None
     = Throw (Error networkErrorMessage).
Proof. split; vm_compute; reflexivity. Qed.

(** A transport failure whose message lacks the word is passed on as it
    is. *)
Example load_failed_is_not_replaced :
  editImage (fun _ => Throw (TypeError (js "Load failed")))
    (js "QUJD") (js "image/png") (js "make it blue") None None
  = Throw (Error (js "Load failed")).
Proof. vm_compute. reflexivity. Qed.

(* ===================================================================== *)
(** ** Attachments *)
(* ===================================================================== *)

Lemma find_first
    (callback : value -> completion bool) (before after : list value)
    (item : value) :
  Forall (fun a => callback a = Normal false) before ->
  callback item = Normal true ->
  find callback (before ++ item :: after) = Normal item.
Proof.
  intros Hbefore Hitem. induction Hbefore as [|a before Ha _ IH]; cbn [app find].
  - now rewrite Hitem.
  - now rewrite Ha.
Qed.

(** C10: of the attachments only the first one that is tagged [image] or
    whose content type starts with [image/] is looked at.  When it has no
    truthy [url], the attachments leave [result] as it was, whatever the
    later entries carry, and the direct [image_url] of the message is
    taken next. *)
Theorem C10_only_first_image_attachment_consulted
    (message : value) (before after : list value) (att url : value)
    (result : GeneratedContent) :
  truthy (imageUrl result) = false ->
  prop message (js "attachments") = Normal (VArr (before ++ att :: after)) ->
  Forall (fun a => isImageAttachment a = Normal false) before ->
  isImageAttachment att = Normal true ->
  prop att (js "url") = Normal url -> truthy url = false ->
  fromAttachments message result = Normal result
  /\ forall direct,
       prop message (js "image_url") = Normal direct ->
       truthy direct = true ->
       (r <- fromAttachments message result ;; fromDirectUrl message r)
       = Normal (setImageUrl result direct).
Proof.
  intros Hnone Hatt Hbefore Hfirst Hurl Hfalsy.
  assert (Hstep : fromAttachments message result = Normal result).
  { unfold fromAttachments. rewrite Hnone, Hatt. cbn [negb Js.bind truthy].
    rewrite (find_first _ _ _ _ Hbefore Hfirst). cbn [Js.bind].
    assert (Hopt : optProp att (js "url") = Normal url).
    { unfold optProp. destruct att; try exact Hurl; discriminate Hfirst. }
    rewrite Hopt. cbn [Js.bind]. now rewrite Hfalsy. }
  split; [exact Hstep|].
  intros direct Hdirect Htruthy. rewrite Hstep. cbn [Js.bind].
  unfold fromDirectUrl. rewrite Hnone, Hdirect. cbn [negb Js.bind].
  now rewrite Htruthy.
Qed.

Lemma C10_witness :
  fromAttachments Samples.attachedMessage blank = Normal blank
  /\ forall direct,
       prop Samples.attachedMessage (js "image_url") = Normal direct ->
       truthy direct = true ->
       (r <- fromAttachments Samples.attachedMessage blank ;;
        fromDirectUrl Samples.attachedMessage r)
       = Normal (setImageUrl blank direct).
Proof.
  refine (C10_only_first_image_attachment_consulted
            Samples.attachedMessage
            [Samples.fileAttachment] [Samples.lateImageAttachment]
            Samples.bareImageAttachment VUndef blank
            eq_refl eq_refl _ eq_refl eq_refl eq_refl).
  repeat constructor.
Defined.

(** The whole call on that message: the later attachment is passed over
    and the direct URL is returned. *)
Example attachments_fall_through :
  extractImage (Samples.answer Samples.attachedMessage)
  = Normal {| imageUrl := VStr (js "https://x/direct.png"); text := VNull |}.
Proof. vm_compute. reflexivity. Qed.

(* ===================================================================== *)
(** ** Searching across a separator *)
(* ===================================================================== *)




Lemma includes_itself (s : jsstring) : includes s s = true.
Proof.
  rewrite <- (app_nil_r s) at 1. exact (includes_app [] s []).
Qed.




(* ===================================================================== *)
(** ** The stages of lines 160-205, one by one *)
(* ===================================================================== *)

Lemma firstImageUrlPart_truthy (items : list value) (url : value) :
  firstImageUrlPart items = Normal (Some url) -> truthy url = true.
Proof.
  induction items as [|item rest IH]; cbn [firstImageUrlPart]; [discriminate|].
  destruct (prop item (js "type")) as [tag|]; cbn [Js.bind]; [|discriminate].
  destruct (strictEqStr tag (js "image_url")); [|exact IH].
  destruct (prop item (js "image_url")) as [nested|]; cbn [Js.bind]; [|discriminate].
  destruct (optProp nested (js "url")) as [u|]; cbn [Js.bind]; [|discriminate].
  destruct (truthy u) eqn:T; [|exact IH].
  now intros [= <-].
Qed.

Lemma firstImageUrlPart_cons (item : value) (rest : list value) :
  firstImageUrlPart (item :: rest)
  = found <- firstImageUrlPart [item] ;;
    match found with
    | Some url => Normal (Some url)
    | None => firstImageUrlPart rest
    end.
Proof.
  cbn [firstImageUrlPart].
  destruct (prop item (js "type")) as [tag|]; cbn [Js.bind]; [|reflexivity].
  destruct (strictEqStr tag (js "image_url")); [|reflexivity].
  destruct (prop item (js "image_url")) as [nested|]; cbn [Js.bind]; [|reflexivity].
  destruct (optProp nested (js "url")) as [u|]; cbn [Js.bind]; [|reflexivity].
  now destruct (truthy u).
Qed.

Lemma firstImageUrlPart_passed (before rest : list value) :
  Forall passedOver before ->
  firstImageUrlPart (before ++ rest) = firstImageUrlPart rest.
Proof.
  induction 1 as [|item before Hitem _ IH]; [reflexivity|].
  cbn [app]. rewrite firstImageUrlPart_cons.
  unfold passedOver in Hitem. now rewrite Hitem.
Qed.

Lemma fromImages_hit (message : value) (items : list value) (url : value)
    (r : GeneratedContent) :
  prop message (js "images") = Normal (VArr items) ->
  firstImageUrlPart items = Normal (Some url) ->
  fromImages message r = Normal (setImageUrl r url).
Proof. unfold fromImages. intros -> H. cbn [Js.bind]. now rewrite H. Qed.

Lemma fromImages_miss (message images : value) (r : GeneratedContent) :
  prop message (js "images") = Normal images ->
  noImageInImages images ->
  fromImages message r = Normal r.
Proof.
  unfold fromImages, noImageInImages. intros -> H. cbn [Js.bind].
  destruct images; try reflexivity.
  now rewrite (H _ eq_refl).
Qed.

Lemma fromAttachments_done (message : value) (r : GeneratedContent) :
  truthy (imageUrl r) = true -> fromAttachments message r = Normal r.
Proof. unfold fromAttachments. now intros ->. Qed.


Lemma fromDirectUrl_done (message : value) (r : GeneratedContent) :
  truthy (imageUrl r) = true -> fromDirectUrl message r = Normal r.
Proof. unfold fromDirectUrl. now intros ->. Qed.

Lemma fromContentArray_done (message : value) (r : GeneratedContent) :
  truthy (imageUrl r) = true -> fromContentArray message r = Normal r.
Proof. unfold fromContentArray. now intros ->. Qed.

Lemma fromContentArray_no_array (message content : value)
    (r : GeneratedContent) :
  prop message (js "content") = Normal content ->
  (forall items, content <> VArr items) ->
  fromContentArray message r = Normal r.
Proof.
  unfold fromContentArray. intros -> H.
  destruct (negb (truthy (imageUrl r))); [|reflexivity]. cbn [Js.bind].
  destruct content; try reflexivity. now destruct (H items).
Qed.

Lemma alternativeFormats_stages (data message : value) (r : GeneratedContent) :
  truthy (imageUrl r) = false ->
  firstMessage data = Normal message -> truthy message = true ->
  alternativeFormats data r
  = (r1 <- fromImages message r ;;
     r2 <- fromAttachments message r1 ;;
     r3 <- fromDirectUrl message r2 ;;
     fromContentArray message r3).
Proof.
  unfold alternativeFormats. intros -> -> T. cbn [negb Js.bind].
  now rewrite T.
Qed.

(** The content of a message that exists is read off the message. *)
Lemma content_of_message (data message content : value) :
  firstMessage data = Normal message -> truthy message = true ->
  responseContent data = Normal content ->
  prop message (js "content") = Normal content.
Proof.
  unfold responseContent, optProp. intros -> T. cbn [Js.bind].
  now destruct message.
Qed.

Lemma noImageInContent_no_array (content : value) :
  noImageInContent content -> forall items, content <> VArr items.
Proof.
  intros [H|(s & -> & _)] items E; [subst; discriminate H|discriminate E].
Qed.

(** Lines 130-157 for a content without image. *)
Lemma fromContent_noImage (content : value) :
  noImageInContent content ->
  fromContent content blank
  = Normal {| imageUrl := VNull; text := capturedText content |}.
Proof.
  intros [H|(s & -> & H)].
  - rewrite (fromContent_falsy _ _ H).
    destruct content as [| |b|n|s|items|props]; try reflexivity; try discriminate H.
    now destruct s.
  - destruct s as [|c s]; [reflexivity|].
    rewrite fromContent_string by discriminate.
    unfold afterContent. now rewrite H.
Qed.

(** Lines 125-228 for a content without image: the other shapes decide. *)
Lemma extractImage_alternatives (data content : value) :
  responseContent data = Normal content ->
  noImageInContent content ->
  extractImage data
  = (result <- alternativeFormats data
                 {| imageUrl := VNull; text := capturedText content |} ;;
     if negb (truthy (imageUrl result))
     then Throw (Error (noImageMessage (text result)))
     else Normal result).
Proof.
  intros Hc Hn. unfold extractImage. rewrite Hc. cbn [Js.bind].
  fold blank. now rewrite (fromContent_noImage _ Hn).
Qed.

Lemma rethrow_plain (message : jsstring) :
  rethrow (Error message)
  = Throw (Error (if includes message (js "fetch")
                  then networkErrorMessage else message)).
Proof. reflexivity. Qed.

(** A lookup that finds something was made on an object, which is
    truthy. *)
Lemma prop_found (v found : value) (name : jsstring) :
  prop v name = Normal found -> found <> VUndef -> truthy v = true.
Proof.
  destruct v; cbn [prop]; try discriminate; try (intros [= <-]; congruence).
  reflexivity.
Qed.


(** An engine-raised error whose message lacks [fetch] reaches the caller
    with its message, as a plain [Error]. *)
Lemma tryCatch_TypeError (message : jsstring) :
  includes message (js "fetch") = false ->
  tryCatch (Throw (TypeError message)) rethrow = Throw (Error message).
Proof. intros H. cbn [tryCatch]. unfold TypeError. now rewrite rethrow_Error, H. Qed.

Lemma null_entry_message :
  js "Cannot read properties of null (reading '" +++ js "type" +++ js "')"
  = js "Cannot read properties of null (reading 'type')".
Proof. vm_compute. reflexivity. Qed.

Lemma fromContent_not_string_message (content : value) (r : GeneratedContent) :
  truthy content = true -> (forall s, content <> VStr s) ->
  fromContent content r
  = Throw (TypeError (js "responseContent.match is not a function"))
  \/ fromContent content r
     = Throw (TypeError (js "responseContent?.substring is not a function")).
Proof.
  unfold fromContent. intros -> Hns.
  destruct content as [| |b|n|s|items|props]; try (left; reflexivity).
  - now destruct (Hns s).
  - cbn [contentPreview]. destruct (getOwn props (js "substring")) as [v|].
    + destruct (nullish v); [left|right]; reflexivity.
    + left; reflexivity.
Qed.

(* ===================================================================== *)
(** ** The call on a delivered answer *)
(* ===================================================================== *)

Section Delivered.

Variable fetch : RequestBody -> completion Response.
Variables base64ImageData mimeType prompt : jsstring.
Variable maskBase64 : option jsstring.
Variable secondaryImage : option ImageInput.
Variable response : Response.
Variable data : value.

Hypothesis fetched :
  fetch (requestBody base64ImageData mimeType prompt maskBase64 secondaryImage)
  = Normal response.
Hypothesis succeeded : ok response = true.
Hypothesis decoded : json response = Normal data.

Local Notation "'call'" :=
  (editImage fetch base64ImageData mimeType prompt maskBase64 secondaryImage).

Lemma editImage_delivered : call = tryCatch (extractImage data) rethrow.
Proof.
  unfold editImage. rewrite fetched. cbn [Js.bind].
  rewrite succeeded. cbn [negb]. now rewrite decoded.
Qed.

(** X1: when the answer has no first message (no [choices], an empty
    [choices], a choice without [message]), the call fails with the
    diagnostic, which quotes no text. *)
Theorem missing_message_fails_without_text (message : value) :
  firstMessage data = Normal message -> truthy message = false ->
  call = Throw (Error (noImageMessage VNull)).
Proof.
  intros Hm Hf.
  assert (Hc : responseContent data = Normal VUndef).
  { unfold responseContent. rewrite Hm. cbn [Js.bind].
    destruct message as [| |b|n|s|items|props]; try reflexivity;
      discriminate Hf. }
  rewrite editImage_delivered.
  rewrite (extractImage_alternatives data VUndef Hc (or_introl eq_refl)).
  unfold alternativeFormats. cbn [imageUrl truthy negb].
  rewrite Hm. cbn [Js.bind]. rewrite Hf. cbn [Js.bind imageUrl truthy negb text capturedText tryCatch].
  rewrite rethrow_plain.
  assert (Hclean : includes (noImageMessage VNull) (js "fetch") = false)
    by (vm_compute; reflexivity).
  now rewrite Hclean.
Qed.


(** X3: the first entry of [message.images] that is tagged [image_url]
    and has a truthy nested [url] is returned, whatever follows it in the
    array and whatever [attachments] and [image_url] hold; a text content
    stays in the result beside it. *)
Theorem first_usable_image_part_is_returned
    (message content : value) (before after : list value)
    (item nested url : value) :
  firstMessage data = Normal message ->
  responseContent data = Normal content -> noImageInContent content ->
  prop message (js "images") = Normal (VArr (before ++ item :: after)) ->
  Forall passedOver before ->
  prop item (js "type") = Normal (VStr (js "image_url")) ->
  prop item (js "image_url") = Normal nested ->
  optProp nested (js "url") = Normal url -> truthy url = true ->
  call = Normal {| imageUrl := url; text := capturedText content |}.
Proof.
  intros Hm Hc Hn Himg Hbefore Htag Hnested Hurl Htruthy.
  assert (Ht : truthy message = true)
    by (apply (prop_found _ _ _ Himg); discriminate).
  assert (Hfound : firstImageUrlPart (before ++ item :: after)
                   = Normal (Some url)).
  { rewrite (firstImageUrlPart_passed _ _ Hbefore). cbn [firstImageUrlPart].
    rewrite Htag. cbn [Js.bind]. rewrite Hnested. cbn [Js.bind].
    rewrite Hurl. cbn [Js.bind]. now rewrite Htruthy. }
  rewrite editImage_delivered, (extractImage_alternatives _ _ Hc Hn).
  rewrite (alternativeFormats_stages data message
             {| imageUrl := VNull; text := capturedText content |}
             eq_refl Hm Ht).
  rewrite (fromImages_hit _ _ _ _ Himg Hfound). cbn [Js.bind setImageUrl text].
  rewrite fromAttachments_done by exact Htruthy. cbn [Js.bind].
  rewrite fromDirectUrl_done by exact Htruthy. cbn [Js.bind].
  rewrite fromContentArray_done by exact Htruthy.
  cbn [Js.bind setImageUrl imageUrl text]. now rewrite Htruthy.
Qed.

(** X4: a [null] entry of [message.images] that the loop reaches aborts
    the call with the engine's error for reading [type] of [null], even
    when a later entry, an attachment or [image_url] holds an image. *)
Theorem null_image_entry_aborts
    (message content : value) (before after : list value) :
  firstMessage data = Normal message ->
  responseContent data = Normal content -> noImageInContent content ->
  prop message (js "images") = Normal (VArr (before ++ VNull :: after)) ->
  Forall passedOver before ->
  call
  = Throw (Error (js "Cannot read properties of null (reading 'type')")).
Proof.
  intros Hm Hc Hn Himg Hbefore.
  assert (Ht : truthy message = true)
    by (apply (prop_found _ _ _ Himg); discriminate).
  rewrite editImage_delivered, (extractImage_alternatives _ _ Hc Hn).
  rewrite (alternativeFormats_stages data message
             {| imageUrl := VNull; text := capturedText content |}
             eq_refl Hm Ht).
  unfold fromImages. rewrite Himg. cbn [Js.bind].
  rewrite (firstImageUrlPart_passed _ _ Hbefore).
  cbn [firstImageUrlPart prop Js.bind]. rewrite null_entry_message.
  apply tryCatch_TypeError. vm_compute. reflexivity.
Qed.

(** X5: a truthy [message.attachments] that is not an array aborts the
    call, because only arrays have [find]; a [message.images] that is not
    an array is passed over in silence. *)
Theorem attachments_not_array_aborts
    (message content images attachments : value) :
  firstMessage data = Normal message ->
  responseContent data = Normal content -> noImageInContent content ->
  prop message (js "images") = Normal images -> noImageInImages images ->
  prop message (js "attachments") = Normal attachments ->
  truthy attachments = true -> (forall items, attachments <> VArr items) ->
  call = Throw (Error (js "message.attachments.find is not a function")).
Proof.
  intros Hm Hc Hn Himg Hmiss Hatt Htruthy Hnarr.
  assert (Ht : truthy message = true).
  { apply (prop_found _ _ _ Hatt). intros ->. discriminate Htruthy. }
  rewrite editImage_delivered, (extractImage_alternatives _ _ Hc Hn).
  rewrite (alternativeFormats_stages data message
             {| imageUrl := VNull; text := capturedText content |}
             eq_refl Hm Ht).
  rewrite (fromImages_miss _ _ _ Himg Hmiss). cbn [Js.bind].
  unfold fromAttachments. cbn [imageUrl truthy negb].
  rewrite Hatt. cbn [Js.bind]. rewrite Htruthy.
  assert (Hclean : includes (js "message.attachments.find is not a function")
                     (js "fetch") = false) by (vm_compute; reflexivity).
  destruct attachments as [| |b|n|s|items|props]; cbn [Js.bind];
    try exact (tryCatch_TypeError _ Hclean); try discriminate Htruthy.
  now destruct (Hnarr items).
Qed.

(** X6: when [images] gives nothing, the first image attachment's truthy
    [url] is returned, whatever [message.image_url] holds. *)
Theorem attachment_url_beats_direct_url
    (message content images : value) (before after : list value)
    (att url : value) :
  firstMessage data = Normal message ->
  responseContent data = Normal content -> noImageInContent content ->
  prop message (js "images") = Normal images -> noImageInImages images ->
  prop message (js "attachments") = Normal (VArr (before ++ att :: after)) ->
  Forall (fun a => isImageAttachment a = Normal false) before ->
  isImageAttachment att = Normal true ->
  prop att (js "url") = Normal url -> truthy url = true ->
  call = Normal {| imageUrl := url; text := capturedText content |}.
Proof.
  intros Hm Hc Hn Himg Hmiss Hatt Hbefore Hfirst Hurl Htruthy.
  assert (Ht : truthy message = true)
    by (apply (prop_found _ _ _ Hatt); discriminate).
  rewrite editImage_delivered, (extractImage_alternatives _ _ Hc Hn).
  rewrite (alternativeFormats_stages data message
             {| imageUrl := VNull; text := capturedText content |}
             eq_refl Hm Ht).
  rewrite (fromImages_miss _ _ _ Himg Hmiss). cbn [Js.bind].
  unfold fromAttachments. cbn [imageUrl truthy negb].
  rewrite Hatt. cbn [Js.bind truthy].
  rewrite (find_first _ _ _ _ Hbefore Hfirst). cbn [Js.bind].
  assert (Hopt : optProp att (js "url") = Normal url).
  { unfold optProp. destruct att; try exact Hurl; discriminate Hfirst. }
  rewrite Hopt. cbn [Js.bind]. rewrite Htruthy.
  rewrite fromDirectUrl_done by exact Htruthy. cbn [Js.bind].
  rewrite fromContentArray_done by exact Htruthy.
  cbn [Js.bind setImageUrl imageUrl text]. now rewrite Htruthy.
Qed.


(** X8: a truthy content of any kind other than a string (a number,
    [true], an object, an array) aborts the call with the engine's error
    for calling a missing method, before any other field of the message
    is looked at. *)
Theorem non_string_content_aborts (content : value) :
  responseContent data = Normal content ->
  truthy content = true -> (forall s, content <> VStr s) ->
  call = Throw (Error (js "responseContent.match is not a function"))
  \/ call = Throw (Error (js "responseContent?.substring is not a function")).
Proof.
  intros Hc Htruthy Hns.
  rewrite editImage_delivered. unfold extractImage. rewrite Hc. cbn [Js.bind].
  destruct (fromContent_not_string_message content
              {| imageUrl := VNull; text := VNull |} Htruthy Hns) as [E|E];
    rewrite E; cbn [Js.bind]; [left|right];
    apply tryCatch_TypeError; vm_compute; reflexivity.
Qed.

End Delivered.

Lemma missing_message_witness :
  editImage (Samples.respond Cases.noChoices)
    (js "QUJD") (js "image/png") (js "make it blue") None None
  = Throw (Error (noImageMessage VNull)).
Proof.
  refine (missing_message_fails_without_text
            (Samples.respond Cases.noChoices)
            (js "QUJD") (js "image/png") (js "make it blue") None None
            (Cases.delivered Cases.noChoices) Cases.noChoices
            eq_refl eq_refl eq_refl VUndef _ _);
    vm_compute; reflexivity.
Defined.


Lemma first_usable_image_part_witness :
  editImage (Samples.respond Cases.everyShape)
    (js "QUJD") (js "image/png") (js "make it blue") None None
  = Normal {| imageUrl := VStr (js "https://x/first.png");
              text := capturedText (VStr []) |}.
Proof.
  refine (first_usable_image_part_is_returned
            (Samples.respond Cases.everyShape)
            (js "QUJD") (js "image/png") (js "make it blue") None None
            (Cases.delivered Cases.everyShape) Cases.everyShape
            eq_refl eq_refl eq_refl
            _ (VStr [])
            [VObj [(js "type", VStr (js "text"))]]
            [Samples.imagePart "https://x/second.png"]
            (Samples.imagePart "https://x/first.png")
            (VObj [(js "url", VStr (js "https://x/first.png"))])
            (VStr (js "https://x/first.png"))
            eq_refl _ _ _ _ _ _ _ _);
    try (vm_compute; reflexivity).
  - left. reflexivity.
  - repeat constructor.
Defined.

Lemma null_image_entry_witness :
  editImage (Samples.respond Cases.nullEntry)
    (js "QUJD") (js "image/png") (js "make it blue") None None
  = Throw (Error (js "Cannot read properties of null (reading 'type')")).
Proof.
  refine (null_image_entry_aborts
            (Samples.respond Cases.nullEntry)
            (js "QUJD") (js "image/png") (js "make it blue") None None
            (Cases.delivered Cases.nullEntry) Cases.nullEntry
            eq_refl eq_refl eq_refl
            _ VUndef [] [Samples.imagePart "https://x/y.png"]
            eq_refl _ _ _ _);
    try (vm_compute; reflexivity).
  - left. reflexivity.
  - constructor.
Defined.

Lemma attachments_not_array_witness :
  editImage (Samples.respond Cases.attachmentsObject)
    (js "QUJD") (js "image/png") (js "make it blue") None None
  = Throw (Error (js "message.attachments.find is not a function")).
Proof.
  refine (attachments_not_array_aborts
            (Samples.respond Cases.attachmentsObject)
            (js "QUJD") (js "image/png") (js "make it blue") None None
            (Cases.delivered Cases.attachmentsObject) Cases.attachmentsObject
            eq_refl eq_refl eq_refl
            _ VUndef VUndef
            (VObj [(js "type", VStr (js "image"));
                   (js "url", VStr (js "https://x/a.png"))])
            eq_refl _ _ _ _ _ _ _);
    try (vm_compute; reflexivity).
  - left. reflexivity.
  - intros items E. discriminate E.
  - intros items E. discriminate E.
Defined.

Lemma attachment_url_witness :
  editImage (Samples.respond Cases.attachmentAndDirect)
    (js "QUJD") (js "image/png") (js "make it blue") None None
  = Normal {| imageUrl := VStr (js "https://x/late.png");
              text := capturedText (VStr (js "Done.")) |}.
Proof.
  refine (attachment_url_beats_direct_url
            (Samples.respond Cases.attachmentAndDirect)
            (js "QUJD") (js "image/png") (js "make it blue") None None
            (Cases.delivered Cases.attachmentAndDirect)
            Cases.attachmentAndDirect
            eq_refl eq_refl eq_refl
            _ (VStr (js "Done.")) VUndef
            [Samples.fileAttachment] [] Samples.lateImageAttachment
            (VStr (js "https://x/late.png"))
            eq_refl _ _ _ _ _ _ _ _ _);
    try (vm_compute; reflexivity).
  - right. exists (js "Done."). split; vm_compute; reflexivity.
  - intros items E. discriminate E.
  - repeat constructor.
Defined.


Lemma non_string_content_witness :
  editImage (Samples.respond Cases.numericContent)
    (js "QUJD") (js "image/png") (js "make it blue") None None
  = Throw (Error (js "responseContent.match is not a function"))
  \/ editImage (Samples.respond Cases.numericContent)
       (js "QUJD") (js "image/png") (js "make it blue") None None
     = Throw (Error (js "responseContent?.substring is not a function")).
Proof.
  refine (non_string_content_aborts
            (Samples.respond Cases.numericContent)
            (js "QUJD") (js "image/png") (js "make it blue") None None
            (Cases.delivered Cases.numericContent) Cases.numericContent
            eq_refl eq_refl eq_refl
            (VNum {| nonzero := true; spelling := js "42" |}) _ _ _);
    try (vm_compute; reflexivity).
  intros s E. discriminate E.
Defined.

(* ===================================================================== *)
(** ** When the call returns and how it fails *)
(* ===================================================================== *)

(** X9: the call returns a value exactly when the transport resolves with
    a status in 200-299, the body decodes, and the extractor completes
    normally on the decoded body; the value is the extractor's. *)
Theorem editImage_returns_iff
    (fetch : RequestBody -> completion Response)
    (base64ImageData mimeType prompt : jsstring)
    (maskBase64 : option jsstring) (secondaryImage : option ImageInput)
    (result : GeneratedContent) :
  editImage fetch base64ImageData mimeType prompt maskBase64 secondaryImage
  = Normal result
  <-> exists response data,
        fetch (requestBody base64ImageData mimeType prompt maskBase64
                 secondaryImage) = Normal response
        /\ ok response = true
        /\ json response = Normal data
        /\ extractImage data = Normal result.
Proof.
  split.
  - apply editImage_Normal.
  - intros (response & data & F & K & J & X).
    now rewrite (editImage_delivered _ _ _ _ _ _ response data F K J), X.
Qed.

(** X10: a status below 200 or above 299 never yields a value, whatever
    the body holds: the call fails with an [Error]. *)
Theorem non_success_status_never_returns
    (fetch : RequestBody -> completion Response)
    (base64ImageData mimeType prompt : jsstring)
    (maskBase64 : option jsstring) (secondaryImage : option ImageInput)
    (response : Response) :
  fetch (requestBody base64ImageData mimeType prompt maskBase64
           secondaryImage) = Normal response ->
  (status response < 200 \/ 299 < status response)%N ->
  exists message,
    editImage fetch base64ImageData mimeType prompt maskBase64 secondaryImage
    = Throw (Error message).
Proof.
  intros F Hstatus.
  assert (K : ok response = false).
  { unfold ok. apply andb_false_iff.
    destruct Hstatus as [H|H]; [left|right]; apply N.leb_gt; exact H. }
  unfold editImage. rewrite F. cbn [Js.bind]. rewrite K. cbn [negb].
  destruct (httpError_throws response) as [e ->]. cbn [tryCatch].
  apply rethrow_throws.
Qed.

Lemma non_success_status_witness :
  exists message,
    editImage Cases.notFound (js "QUJD") (js "image/png") (js "make it blue")
      None None
    = Throw (Error message).
Proof.
  refine (non_success_status_never_returns Cases.notFound
            (js "QUJD") (js "image/png") (js "make it blue") None None
            {| status := 404; statusText := js "Not Found";
               json := Normal (VObj []) |}
            eq_refl _).
  right. reflexivity.
Defined.

(** X11: whatever goes wrong, the caller receives a plain [Error], and
    its message never contains [fetch]. *)
Theorem rejections_are_errors_without_fetch
    (fetch : RequestBody -> completion Response)
    (base64ImageData mimeType prompt : jsstring)
    (maskBase64 : option jsstring) (secondaryImage : option ImageInput)
    (e : exn) :
  editImage fetch base64ImageData mimeType prompt maskBase64 secondaryImage
  = Throw e ->
  exists message, e = Error message /\ includes message (js "fetch") = false.
Proof.
  unfold editImage, tryCatch.
  destruct (Js.bind _ _) as [r|thrown]; [discriminate|].
  destruct thrown as [name message|v]; cbn [rethrow].
  - destruct (includes message (js "fetch")) eqn:I; intros [= <-].
    + exists networkErrorMessage. split; [reflexivity|]. vm_compute. reflexivity.
    + now exists message.
  - intros [= <-]. exists unknownErrorMessage.
    split; [reflexivity|]. vm_compute. reflexivity.
Qed.

Lemma rejections_witness :
  exists message,
    Error networkErrorMessage = Error message
    /\ includes message (js "fetch") = false.
Proof.
  refine (rejections_are_errors_without_fetch
            (Samples.refuse 400 "Bad Request" Samples.upstreamFetchFailure)
            (js "QUJD") (js "image/png") (js "make it blue") None None
            (Error networkErrorMessage) _).
  vm_compute. reflexivity.
Defined.

(** X12: for a non-success status whose decoded body has a non-empty
    string at [error.message], the caller receives that string, or the
    connectivity message when the string contains [fetch]; the status
    line is not reported. *)
Theorem http_error_reports_body_message
    (fetch : RequestBody -> completion Response)
    (base64ImageData mimeType prompt : jsstring)
    (maskBase64 : option jsstring) (secondaryImage : option ImageInput)
    (response : Response) (body error : value) (message : jsstring) :
  fetch (requestBody base64ImageData mimeType prompt maskBase64
           secondaryImage) = Normal response ->
  ok response = false ->
  json response = Normal body ->
  prop body (js "error") = Normal error ->
  optProp error (js "message") = Normal (VStr message) ->
  message <> [] ->
  editImage fetch base64ImageData mimeType prompt maskBase64 secondaryImage
  = Throw (Error (if includes message (js "fetch")
                  then networkErrorMessage else message)).
Proof.
  intros F K J Herr Hmsg Hne.
  unfold editImage. rewrite F. cbn [Js.bind]. rewrite K. cbn [negb].
  unfold httpError. rewrite J. cbn [Js.bind].
  rewrite Herr. cbn [Js.bind]. rewrite Hmsg. cbn [Js.bind].
  destruct message as [|c message]; [contradiction|].
  reflexivity.
Qed.

Lemma http_error_body_witness :
  editImage Cases.rateLimited (js "QUJD") (js "image/png") (js "make it blue")
    None None
  = Throw (Error (if includes (js "Rate limit exceeded") (js "fetch")
                  then networkErrorMessage else js "Rate limit exceeded")).
Proof.
  refine (http_error_reports_body_message Cases.rateLimited
            (js "QUJD") (js "image/png") (js "make it blue") None None
            _ _ (VObj [(js "message", VStr (js "Rate limit exceeded"))])
            (js "Rate limit exceeded")
            eq_refl eq_refl eq_refl eq_refl eq_refl _).
  discriminate.
Defined.

(** X13: for a non-success status whose decoded body has no truthy
    [error.message] (no [error], no [message], an empty one), the caller
    receives [HTTP <status>: <statusText>], or the connectivity message
    when that line contains [fetch]. *)
Theorem http_error_falls_back_to_status_line
    (fetch : RequestBody -> completion Response)
    (base64ImageData mimeType prompt : jsstring)
    (maskBase64 : option jsstring) (secondaryImage : option ImageInput)
    (response : Response) (body error message : value) :
  fetch (requestBody base64ImageData mimeType prompt maskBase64
           secondaryImage) = Normal response ->
  ok response = false ->
  json response = Normal body ->
  prop body (js "error") = Normal error ->
  optProp error (js "message") = Normal message ->
  truthy message = false ->
  let line :=
    js "HTTP " +++ decimal (status response) +++ js ": "
    +++ statusText response in
  editImage fetch base64ImageData mimeType prompt maskBase64 secondaryImage
  = Throw (Error (if includes line (js "fetch")
                  then networkErrorMessage else line)).
Proof.
  intros F K J Herr Hmsg Hfalsy line.
  unfold editImage. rewrite F. cbn [Js.bind]. rewrite K. cbn [negb].
  unfold httpError. rewrite J. cbn [Js.bind].
  rewrite Herr. cbn [Js.bind]. rewrite Hmsg. cbn [Js.bind].
  rewrite Hfalsy. reflexivity.
Qed.

Lemma http_error_status_line_witness :
  editImage Cases.notFound (js "QUJD") (js "image/png") (js "make it blue")
    None None
  = Throw (Error (if includes (js "HTTP " +++ decimal 404 +++ js ": "
                               +++ js "Not Found") (js "fetch")
                  then networkErrorMessage
                  else js "HTTP " +++ decimal 404 +++ js ": "
                       +++ js "Not Found")).
Proof.
  exact (http_error_falls_back_to_status_line Cases.notFound
           (js "QUJD") (js "image/png") (js "make it blue") None None
           {| status := 404; statusText := js "Not Found";
              json := Normal (VObj []) |}
           (VObj []) VUndef VUndef
           eq_refl eq_refl eq_refl eq_refl eq_refl eq_refl).
Defined.

Example not_found_status_line :
  editImage Cases.notFound (js "QUJD") (js "image/png") (js "make it blue")
    None None
  = Throw (Error (js "HTTP 404: Not Found")).
Proof. vm_compute. reflexivity. Qed.

(** X14: when the body of a response does not decode, the caller receives
    the decoder's message (or the connectivity message when it contains
    [fetch]), whatever the status: for a non-success status neither the
    status line nor an error body is reported. *)
Theorem undecodable_body_reports_decoder_error
    (fetch : RequestBody -> completion Response)
    (base64ImageData mimeType prompt : jsstring)
    (maskBase64 : option jsstring) (secondaryImage : option ImageInput)
    (response : Response) (name message : jsstring) :
  fetch (requestBody base64ImageData mimeType prompt maskBase64
           secondaryImage) = Normal response ->
  json response = Throw (ErrorObject name message) ->
  editImage fetch base64ImageData mimeType prompt maskBase64 secondaryImage
  = Throw (Error (if includes message (js "fetch")
                  then networkErrorMessage else message)).
Proof.
  intros F J. unfold editImage. rewrite F. cbn [Js.bind].
  destruct (ok response); cbn [negb]; [|unfold httpError];
    rewrite J; reflexivity.
Qed.

Lemma undecodable_body_witness :
  editImage Cases.gatewayError (js "QUJD") (js "image/png")
    (js "make it blue") None None
  = Throw (Error (if includes (js "Unexpected token '<'") (js "fetch")
                  then networkErrorMessage else js "Unexpected token '<'")).
Proof.
  exact (undecodable_body_reports_decoder_error Cases.gatewayError
           (js "QUJD") (js "image/png") (js "make it blue") None None
           _ (js "SyntaxError") (js "Unexpected token '<'")
           eq_refl eq_refl).
Defined.

(* ===================================================================== *)
(** ** More on the outgoing message *)
(* ===================================================================== *)

(** X15: an empty-string mask is no mask: the request is the one built
    for [null], with no mask part and the prompt left as it is. *)
Theorem empty_mask_is_no_mask
    (base64ImageData mimeType prompt : jsstring)
    (secondaryImage : option ImageInput) :
  requestBody base64ImageData mimeType prompt (Some []) secondaryImage
  = requestBody base64ImageData mimeType prompt None secondaryImage.
Proof. reflexivity. Qed.

(** X16: with or without a mask, the one text part of the message
    contains the caller's prompt code unit for code unit; nothing in it is
    escaped, not even a quotation mark inside the quoted prompt. *)
Theorem prompt_is_sent_verbatim
    (base64ImageData mimeType prompt : jsstring)
    (maskBase64 : option jsstring) (secondaryImage : option ImageInput) :
  exists before after,
    texts (messageContent base64ImageData mimeType prompt maskBase64
             secondaryImage)
    = [before +++ prompt +++ after].
Proof.
  assert (Htexts : texts (messageContent base64ImageData mimeType prompt
                            maskBase64 secondaryImage)
                   = [enhancedPrompt prompt maskBase64]).
  { unfold messageContent.
    destruct maskBase64 as [[|c mask]|]; destruct secondaryImage; reflexivity. }
  assert (Hassoc : forall A Q P B S : jsstring,
             (A +++ Q +++ P +++ Q +++ B) +++ S
             = (A +++ Q) +++ P +++ (Q +++ B +++ S)).
  { intros A Q P B S. now rewrite <- !app_assoc. }
  rewrite Htexts. unfold enhancedPrompt, fullPrompt.
  destruct (maskGiven maskBase64).
  - exists (js "Apply the following instruction only to the masked area of the image: "
            +++ quote),
           (quote +++ js ". Preserve the unmasked area."
            +++ js " Please generate and return an image as output.").
    rewrite (Hassoc
               (js "Apply the following instruction only to the masked area of the image: ")
               quote prompt (js ". Preserve the unmasked area.")
               (js " Please generate and return an image as output.")).
    reflexivity.
  - exists [], (js " Please generate and return an image as output.").
    now rewrite app_nil_l.
Qed.

(* ===================================================================== *)
(** ** More on images found in the content *)
(* ===================================================================== *)

Lemma IsDataUri_contentImage (url subtype payload : jsstring) :
  IsDataUri url subtype payload -> contentImage url = Some url.
Proof.
  intros (-> & Hs & Hsub & Hp & Hpay).
  pose proof (matchDataUriAt_complete subtype payload [] Hs Hsub Hp Hpay) as Hat.
  cbn [span fst] in Hat. rewrite !app_nil_r in Hat.
  unfold contentImage. now rewrite (matchDataUri_here _ _ Hat).
Qed.

Lemma Some_inj (a b : jsstring) : Some a = Some b -> a = b.
Proof. now intros [= ->]. Qed.

Lemma contentImage_IsDataUri (s url : jsstring) :
  contentImage s = Some url ->
  exists subtype payload, IsDataUri url subtype payload.
Proof.
  unfold contentImage.
  destruct (matchDataUri s) as [[whole group]|] eqn:E.
  - intros [= <-].
    destruct (matchDataUri_sound _ _ _ E) as (_ & subtype & _ & _ & Hu & _).
    now exists subtype, group.
  - destruct (base64Pattern (trim s)) eqn:B; [|discriminate].
    intros H. apply Some_inj in H. subst url.
    destruct (base64Pattern_sound _ B) as (digits & padding & Ht & Hd & Hlen & Hpad).
    exists (js "png"), (trim s).
    assert (Hprefix : js "data:image/png;base64,"
                      = js "data:image/" +++ js "png" +++ js ";base64,")
      by (vm_compute; reflexivity).
    unfold IsDataUri.
    split; [rewrite Hprefix; now rewrite <- !app_assoc|].
    split; [discriminate|].
    split; [vm_compute; reflexivity|].
    split.
    + rewrite Ht. destruct digits; [cbn [length] in Hlen; lia|discriminate].
    + rewrite Ht, forallb_app. apply andb_true_iff. split.
      * apply (forallb_impl isBase64Digit); [|exact Hd].
        intros c Hc. unfold isBase64Char. now rewrite Hc.
      * now destruct Hpad as [->|[->| ->]].
Qed.

(** X17: an image taken out of a string content is always of the form
    [data:image/<subtype>;base64,<payload>], and it is stable: an answer
    whose content is that very string gives it back unchanged. *)
Theorem content_image_is_a_stable_data_uri
    (data : value) (s url : jsstring) :
  responseContent data = Normal (VStr s) ->
  contentImage s = Some url ->
  extractImage data = Normal {| imageUrl := VStr url; text := VNull |}
  /\ (exists subtype payload, IsDataUri url subtype payload)
  /\ forall again,
       responseContent again = Normal (VStr url) ->
       extractImage again = Normal {| imageUrl := VStr url; text := VNull |}.
Proof.
  intros Hc Hu.
  destruct (contentImage_IsDataUri _ _ Hu) as (subtype & payload & Huri).
  split; [exact (extractImage_from_content _ _ _ Hc Hu)|].
  split; [now exists subtype, payload|].
  intros again Ha.
  exact (extractImage_from_content _ _ _ Ha (IsDataUri_contentImage _ _ _ Huri)).
Qed.

Lemma content_image_witness :
  extractImage Samples.rawBase64
  = Normal {| imageUrl := VStr (js "data:image/png;base64,"
                                +++ trim Samples.paddedBase64);
              text := VNull |}
  /\ (exists subtype payload,
        IsDataUri (js "data:image/png;base64," +++ trim Samples.paddedBase64)
          subtype payload)
  /\ forall again,
       responseContent again
       = Normal (VStr (js "data:image/png;base64,"
                       +++ trim Samples.paddedBase64)) ->
       extractImage again
       = Normal {| imageUrl := VStr (js "data:image/png;base64,"
                                     +++ trim Samples.paddedBase64);
                   text := VNull |}.
Proof.
  refine (content_image_is_a_stable_data_uri Samples.rawBase64
            Samples.paddedBase64
            (js "data:image/png;base64," +++ trim Samples.paddedBase64)
            eq_refl _).
  vm_compute. reflexivity.
Defined.

(** X18: the raw-base64 test accepts exactly the strings made of at least
    100 code units of [A-Za-z0-9+/] followed by none, one or two [=]:
    99 digits, a third [=] or any other code unit anywhere make it
    fail. *)
Theorem raw_base64_accepted_iff (s : jsstring) :
  base64Pattern s = true
  <-> exists digits padding,
        s = digits +++ padding
        /\ forallb isBase64Digit digits = true
        /\ (100 <= length digits)%nat
        /\ (padding = [] \/ padding = js "=" \/ padding = js "==").
Proof.
  split.
  - apply base64Pattern_sound.
  - intros (digits & padding & -> & Hd & Hlen & Hpad).
    now apply base64Pattern_complete.
Qed.

(* ===================================================================== *)
(** ** Video generation and the API key *)
(* ===================================================================== *)


(** X20: loading the module keeps a truthy key or throws the
    configuration error.  A truthy [VITE_API_KEY] is the key and [process]
    is then not looked at; otherwise the key is [process.env.API_KEY],
    and a missing [process], a missing [env] or a falsy key there (an
    empty string included) is the configuration error. *)
Theorem loadModule_key
    (VITE_API_KEY process : value) :
  (truthy VITE_API_KEY = true ->
   loadModule VITE_API_KEY process = Normal VITE_API_KEY)
  /\ (truthy VITE_API_KEY = false -> process = VUndef ->
      loadModule VITE_API_KEY process = Throw (Error missingKeyMessage))
  /\ (forall env key,
        truthy VITE_API_KEY = false ->
        prop process (js "env") = Normal env ->
        optProp env (js "API_KEY") = Normal key ->
        loadModule VITE_API_KEY process
        = if truthy key then Normal key
          else Throw (Error missingKeyMessage))
  /\ (forall key,
        loadModule VITE_API_KEY process = Normal key -> truthy key = true).
Proof.
  unfold loadModule, API_KEY. repeat split.
  - intros T. rewrite T. cbn [Js.bind]. now rewrite T.
  - intros T ->. now rewrite T.
  - intros env key T Henv Hkey. rewrite T.
    destruct process; try discriminate Henv;
      rewrite Henv; cbn [Js.bind]; rewrite Hkey; cbn [Js.bind];
      now destruct (truthy key).
  - intros key.
    destruct (truthy VITE_API_KEY) eqn:T; cbn [Js.bind].
    + rewrite T. now intros [= <-].
    + destruct (match process with VUndef => _ | _ => _ end) as [k|];
        cbn [Js.bind]; [|discriminate].
      destruct (truthy k) eqn:Tk; cbn [negb]; [|discriminate].
      now intros [= <-].
Qed.

(* ===================================================================== *)
(** ** The scan of a content array *)
(* ===================================================================== *)

(** X21: in every run that gets past the content stage, the scan of a
    content array (lines 195-204) leaves [result] as it finds it: the
    content is then falsy or a string, never an array. *)
Theorem content_array_scan_never_contributes
    (data message content : value) (afterContentStage r : GeneratedContent) :
  firstMessage data = Normal message -> truthy message = true ->
  responseContent data = Normal content ->
  fromContent content blank = Normal afterContentStage ->
  fromContentArray message r = Normal r.
Proof.
  intros Hm Ht Hc Hstage.
  apply (fromContentArray_no_array message content r).
  - exact (content_of_message _ _ _ Hm Ht Hc).
  - intros items ->.
    destruct (fromContent_not_string (VArr items) blank eq_refl) as [m Hthrow].
    + discriminate.
    + congruence.
Qed.

Lemma content_array_scan_witness :
  fromContentArray
    (VObj [(js "content", VStr (js "Here is the edited image."));
           (js "images", VArr [Samples.imagePart "https://x/y.png"])])
    blank
  = Normal blank.
Proof.
  refine (content_array_scan_never_contributes Samples.withText
            (VObj [(js "content", VStr (js "Here is the edited image."));
                   (js "images", VArr [Samples.imagePart "https://x/y.png"])])
            (VStr (js "Here is the edited image."))
            {| imageUrl := VNull;
               text := VStr (js "Here is the edited image.") |}
            blank eq_refl eq_refl eq_refl _).
  vm_compute. reflexivity.
Defined.
